(** * frontend.py: the Streamlit page controller of the PDF chat application

    A shallow embedding of [src/frontend.py].  Streamlit re-executes the
    whole script at every user interaction; what survives from one execution
    to the next is [session_state], the files on disk and whatever the page
    has printed.  The script is therefore a function from the widget values
    of one execution and the world before it to the world after it, written
    in a state-and-exception monad, and a session is a sequence of such
    executions that starts from an empty [session_state].

    The classes [EmbeddingsManager] and [ChatbotManager] live in the modules
    [embeddings] and [bot]; the script only constructs them and calls one
    method of each.  They are taken as a parameter (record [Backend]) and
    the theorems are stated over all of their behaviours. *)

From stdpp Require Import gmap strings list pretty.
From Stdlib.Strings Require Import Ascii String Byte.
From Stdlib Require Import QArith.

Close Scope Q_scope.
Open Scope string_scope.
Open Scope list_scope.

(** ** Python exceptions *)

(** The built-in exception classes that matter to the handlers of the
    script, together with their bases. *)
Inductive builtin_exc : Type :=
  | BaseException | SystemExit | KeyboardInterrupt | Exception
  | OSError | FileNotFoundError | ConnectionError | ConnectionRefusedError
  | PermissionError
  | ValueError | UnicodeError | UnicodeDecodeError
  | LookupError | KeyError
  | AttributeError | TypeError | RuntimeError.

#[export] Instance builtin_exc_eq_dec : EqDecision builtin_exc.
Proof. solve_decision. Defined.

Definition builtin_base (c : builtin_exc) : option builtin_exc :=
  match c with
  | BaseException => None
  | SystemExit | KeyboardInterrupt | Exception => Some BaseException
  | OSError | ValueError | LookupError
  | AttributeError | TypeError | RuntimeError => Some Exception
  | FileNotFoundError | ConnectionError | PermissionError => Some OSError
  | ConnectionRefusedError => Some ConnectionError
  | UnicodeError => Some ValueError
  | UnicodeDecodeError => Some UnicodeError
  | KeyError => Some LookupError
  end.

(** The chain of bases of a built-in class, the class itself first.  No
    built-in chain above is longer than five classes. *)
Fixpoint builtin_mro (fuel : nat) (c : builtin_exc) : list builtin_exc :=
  match fuel with
  | O => []
  | S fuel' =>
      c :: match builtin_base c with
           | Some b => builtin_mro fuel' b
           | None => []
           end
  end.

(** An exception class is a built-in one or a class that a library derives
    from another exception class. *)
Inductive exc_class : Type :=
  | Builtin (c : builtin_exc)
  | Derived (name : string) (base : exc_class).

#[export] Instance exc_class_eq_dec : EqDecision exc_class.
Proof. solve_decision. Defined.

Fixpoint mro (c : exc_class) : list exc_class :=
  match c with
  | Builtin b => Builtin <$> builtin_mro 8 b
  | Derived _ base => c :: mro base
  end.

Definition issubclass (c d : exc_class) : bool := bool_decide (d ∈ mro c).

(** An exception object: its class and the text [str(e)] gives. *)
Record exn : Type := { exn_class : exc_class; exn_str : string }.

#[export] Instance exn_eq_dec : EqDecision exn.
Proof. solve_decision. Defined.

Definition isinstance (e : exn) (c : builtin_exc) : bool :=
  issubclass (exn_class e) (Builtin c).

Inductive outcome (A : Type) : Type :=
  | Ret (a : A)
  | Raise (e : exn).
Arguments Ret {A} a.
Arguments Raise {A} e.

(** ** Python values *)

Inductive manager_class : Type := EmbeddingsManager | ChatbotManager.

#[export] Instance manager_class_eq_dec : EqDecision manager_class.
Proof. solve_decision. Defined.

(** The values the script stores and passes around.  A dict keeps its
    items in insertion order; an object is a reference, two instances of a
    class differ by their identity. *)
#[warnings="-register-all"]
Inductive pyval : Type :=
  | PNone
  | PBool (b : bool)
  | PFloat (q : Q)
  | PStr (s : string)
  | PObj (cls : manager_class) (id : nat)
  | PList (items : list pyval)
  | PDict (items : list (string * pyval)).

Definition dict : Type := list (string * pyval).

(** Truth value of [if v:] and [not v].  Instances of the two manager
    classes are plain objects and so are true. *)
Definition truthy (v : pyval) : bool :=
  match v with
  | PNone => false
  | PBool b => b
  | PFloat q => negb (Qeq_bool q 0)
  | PStr s => negb (String.eqb s "")
  | PObj _ _ => true
  | PList items => match items with [] => false | _ => true end
  | PDict items => match items with [] => false | _ => true end
  end.

Fixpoint dict_get (k : string) (d : dict) : option pyval :=
  match d with
  | [] => None
  | (k', v) :: d' => if String.eqb k k' then Some v else dict_get k d'
  end.

(** [d[k] = v]: replaces the value of an existing key in place, appends a
    new key at the end. *)
Fixpoint dict_set (k : string) (v : pyval) (d : dict) : dict :=
  match d with
  | [] => [(k, v)]
  | (k', v') :: d' =>
      if String.eqb k k' then (k', v) :: d' else (k', v') :: dict_set k v d'
  end.

Definition dict_keys (d : dict) : list string := fst <$> d.

Definition KeyError_of (k : string) : exn :=
  {| exn_class := Builtin KeyError; exn_str := "'" +:+ k +:+ "'" |}.

Definition not_subscriptable : exn :=
  {| exn_class := Builtin TypeError; exn_str := "object is not subscriptable" |}.

Definition no_item_assignment : exn :=
  {| exn_class := Builtin TypeError;
     exn_str := "object does not support item assignment" |}.

Definition no_attribute (a : string) : exn :=
  {| exn_class := Builtin AttributeError;
     exn_str := "object has no attribute '" +:+ a +:+ "'" |}.

Definition not_iterable : exn :=
  {| exn_class := Builtin TypeError; exn_str := "object is not iterable" |}.

(** [v[k]] for a string key. *)
Definition subscript (v : pyval) (k : string) : outcome pyval :=
  match v with
  | PDict d => match dict_get k d with
               | Some x => Ret x
               | None => Raise (KeyError_of k)
               end
  | _ => Raise not_subscriptable
  end.

(** [v[k] = x]. *)
Definition store_subscript (v : pyval) (k : string) (x : pyval) : outcome pyval :=
  match v with
  | PDict d => Ret (PDict (dict_set k x d))
  | _ => Raise no_item_assignment
  end.

(** ** The world of one session *)

Record UploadedFile : Type :=
  { file_name : string; file_size : N; file_data : list byte }.

(** What the page and the script do, in the order in which it happens.  A
    call into a manager is recorded with its argument and with what came
    back. *)
Inductive event : Type :=
  | EvSetPageConfig (page_title layout initial_sidebar_state : string)
  | EvImage (path : string)
  | EvMarkdown (body : string) (unsafe_allow_html : bool)
  | EvTitle (body : string)
  | EvHeader (body : string)
  | EvWidget (label : string)
  | EvSuccess (body : pyval)
  | EvWarning (body : string)
  | EvError (body : string)
  | EvInfo (body : string)
  | EvChatMessage (role : pyval) (body : pyval)
  | EvSpinner (text : string)
  | EvSleep (seconds : nat)
  | EvWriteFile (path : string) (data : list byte)
  | EvNewManager (cls : manager_class) (kwargs : dict) (res : outcome pyval)
  | EvCreateEmbeddings (self : pyval) (pdf_path : pyval) (res : outcome pyval)
  | EvGetResponse (self : pyval) (query : pyval) (res : outcome pyval).

Record World : Type :=
  { session_state : dict;
    files : gmap string (list byte);
    trace : list event;
    next_id : nat }.

(** The two collaborators.  What a constructor or a method answers may
    depend on everything that happened so far. *)
Record Backend : Type :=
  { EmbeddingsManager_init : World → dict → option exn;
    EmbeddingsManager_create_embeddings : World → nat → pyval → outcome pyval;
    ChatbotManager_init : World → dict → option exn;
    ChatbotManager_get_response : World → nat → pyval → outcome pyval }.

(** The values of the widgets during one execution of the script. *)
Record Inputs : Type :=
  { choice : string;
    uploaded_file : option UploadedFile;
    create_embeddings : bool;
    chat_input : option string }.

(** ** The monad of the script *)

Definition M (A : Type) : Type := World → outcome A * World.

Definition ret {A} (a : A) : M A := fun w => (Ret a, w).

Definition bind {A B} (c : M A) (k : A → M B) : M B :=
  fun w => match c w with
           | (Ret a, w') => k a w'
           | (Raise e, w') => (Raise e, w')
           end.

Notation "x <- c ;; k" := (bind c (fun x => k))
  (at level 100, c at next level, right associativity).
Notation "c ;; k" := (bind c (fun _ => k))
  (at level 100, right associativity).

Definition raise {A} (e : exn) : M A := fun w => (Raise e, w).

Definition lift {A} (o : outcome A) : M A := fun w => (o, w).

(** [try: body except C1 as e: h1 e except C2 as e: h2 e ...]: the first
    clause whose class the exception is an instance of handles it; without
    such a clause the exception goes on. *)
Fixpoint find_handler {A} (hs : list (builtin_exc * (exn → M A))) (e : exn)
  : option (M A) :=
  match hs with
  | [] => None
  | (c, h) :: hs' => if isinstance e c then Some (h e) else find_handler hs' e
  end.

Definition try_except {A} (body : M A) (hs : list (builtin_exc * (exn → M A)))
  : M A :=
  fun w => match body w with
           | (Ret a, w') => (Ret a, w')
           | (Raise e, w') =>
               match find_handler hs e with
               | Some h => h w'
               | None => (Raise e, w')
               end
           end.

Definition emit (e : event) : M unit :=
  fun w => (Ret tt, {| session_state := session_state w; files := files w;
                       trace := trace w ++ [e]; next_id := next_id w |}).

Definition get_session_state : M dict := fun w => (Ret (session_state w), w).

Definition put_session_state (d : dict) : M unit :=
  fun w => (Ret tt, {| session_state := d; files := files w;
                       trace := trace w; next_id := next_id w |}).

(** [open(path, "wb")] followed by [f.write(data)]. *)
Definition write_file (path : string) (data : list byte) : M unit :=
  fun w => (Ret tt, {| session_state := session_state w;
                       files := <[path := data]> (files w);
                       trace := trace w ++ [EvWriteFile path data];
                       next_id := next_id w |}).

(** ** Library functions the script calls *)

Definition b64_alphabet : string :=
  "ABCDEFGHIJKLMNOPQRSTUVWXYZabcdefghijklmnopqrstuvwxyz0123456789+/".

Definition b64_digit (n : N) : ascii :=
  match String.get (N.to_nat (n mod 64)) b64_alphabet with
  | Some c => c
  | None => "="%char
  end.

(** [base64.b64encode(data).decode('utf-8')] *)
Fixpoint b64encode (data : list byte) : string :=
  match data with
  | [] => ""
  | [a] =>
      let n := (Byte.to_N a * 65536)%N in
      String (b64_digit (n / 262144)) (String (b64_digit (n / 4096)) "==")
  | [a; b] =>
      let n := (Byte.to_N a * 65536 + Byte.to_N b * 256)%N in
      String (b64_digit (n / 262144))
        (String (b64_digit (n / 4096)) (String (b64_digit (n / 64)) "="))
  | a :: b :: c :: rest =>
      let n := (Byte.to_N a * 65536 + Byte.to_N b * 256 + Byte.to_N c)%N in
      String (b64_digit (n / 262144))
        (String (b64_digit (n / 4096))
           (String (b64_digit (n / 64))
              (String (b64_digit n) (b64encode rest))))
  end.

(** The double quote, for the HTML the script writes. *)
Definition dquote : string := String "034"%char EmptyString.

(** ** The script *)

Definition CONFIG : dict :=
  [ ("embedding_model", PStr "BAAI/bge-small-en");
    ("device", PStr "cpu");
    ("encode_kwargs", PDict [("normalize_embeddings", PBool true)]);
    ("qdrant_url", PStr "http://localhost:6333");
    ("collection_name", PStr "vector_db");
    ("llm_model", PStr "llama3.2:3b");
    ("llm_temperature", PFloat (7 # 10)%Q) ].

Definition display_pdf (file : UploadedFile) : M unit :=
  let base64_pdf := b64encode (file_data file) in
  let pdf_display :=
    "<iframe src=" +:+ dquote +:+ "data:application/pdf;base64," +:+ base64_pdf
    +:+ dquote +:+ " width=" +:+ dquote +:+ "100%" +:+ dquote
    +:+ " height=" +:+ dquote +:+ "600" +:+ dquote
    +:+ " type=" +:+ dquote +:+ "application/pdf" +:+ dquote +:+ "></iframe>" in
  emit (EvMarkdown pdf_display true).

Section Script.

Variable B : Backend.

(** A constructor call with keyword arguments: a new instance gets an
    identity of its own. *)
Definition new_manager (cls : manager_class) (kwargs : dict) : M pyval :=
  fun w =>
    let init := match cls with
                | EmbeddingsManager => EmbeddingsManager_init B
                | ChatbotManager => ChatbotManager_init B
                end in
    match init w kwargs with
    | None =>
        let obj := PObj cls (next_id w) in
        (Ret obj,
         {| session_state := session_state w; files := files w;
            trace := trace w ++ [EvNewManager cls kwargs (Ret obj)];
            next_id := S (next_id w) |})
    | Some e =>
        (Raise e,
         {| session_state := session_state w; files := files w;
            trace := trace w ++ [EvNewManager cls kwargs (Raise e)];
            next_id := next_id w |})
    end.

(** [self.create_embeddings(pdf_path)] *)
Definition call_create_embeddings (self pdf_path : pyval) : M pyval :=
  match self with
  | PObj EmbeddingsManager id =>
      fun w =>
        let res := EmbeddingsManager_create_embeddings B w id pdf_path in
        (res,
         {| session_state := session_state w; files := files w;
            trace := trace w ++ [EvCreateEmbeddings self pdf_path res];
            next_id := next_id w |})
  | _ => raise (no_attribute "create_embeddings")
  end.

(** [self.get_response(query)] *)
Definition call_get_response (self query : pyval) : M pyval :=
  match self with
  | PObj ChatbotManager id =>
      fun w =>
        let res := ChatbotManager_get_response B w id query in
        (res,
         {| session_state := session_state w; files := files w;
            trace := trace w ++ [EvGetResponse self query res];
            next_id := next_id w |})
  | _ => raise (no_attribute "get_response")
  end.

Definition initialize_embeddings_manager : M pyval :=
  model_name <- lift (subscript (PDict CONFIG) "embedding_model") ;;
  device <- lift (subscript (PDict CONFIG) "device") ;;
  encode_kwargs <- lift (subscript (PDict CONFIG) "encode_kwargs") ;;
  qdrant_url <- lift (subscript (PDict CONFIG) "qdrant_url") ;;
  collection_name <- lift (subscript (PDict CONFIG) "collection_name") ;;
  new_manager EmbeddingsManager
    [ ("model_name", model_name); ("device", device);
      ("encode_kwargs", encode_kwargs); ("qdrant_url", qdrant_url);
      ("collection_name", collection_name) ].

Definition initialize_chatbot_manager : M pyval :=
  model_name <- lift (subscript (PDict CONFIG) "embedding_model") ;;
  device <- lift (subscript (PDict CONFIG) "device") ;;
  encode_kwargs <- lift (subscript (PDict CONFIG) "encode_kwargs") ;;
  llm_model <- lift (subscript (PDict CONFIG) "llm_model") ;;
  llm_temperature <- lift (subscript (PDict CONFIG) "llm_temperature") ;;
  qdrant_url <- lift (subscript (PDict CONFIG) "qdrant_url") ;;
  collection_name <- lift (subscript (PDict CONFIG) "collection_name") ;;
  new_manager ChatbotManager
    [ ("model_name", model_name); ("device", device);
      ("encode_kwargs", encode_kwargs); ("llm_model", llm_model);
      ("llm_temperature", llm_temperature); ("qdrant_url", qdrant_url);
      ("collection_name", collection_name) ].

(** [session_state['state'][k]] *)
Definition state_get (k : string) : M pyval :=
  ss <- get_session_state ;;
  state <- lift (subscript (PDict ss) "state") ;;
  lift (subscript state k).

(** [session_state['state'][k] = v]: the dict held under ['state'] is
    changed in place. *)
Definition state_set (k : string) (v : pyval) : M unit :=
  ss <- get_session_state ;;
  state <- lift (subscript (PDict ss) "state") ;;
  state' <- lift (store_subscript state k v) ;;
  put_session_state (dict_set "state" state' ss).

(** [session_state['state']['messages'].append(x)] *)
Definition messages_append (x : pyval) : M unit :=
  messages <- state_get "messages" ;;
  match messages with
  | PList items => state_set "messages" (PList (items ++ [x]))
  | _ => raise (no_attribute "append")
  end.

(** The values a [for] loop runs over. *)
Definition iterate (v : pyval) : outcome (list pyval) :=
  match v with
  | PList items => Ret items
  | PDict items => Ret (PStr <$> dict_keys items)
  | PStr s => Ret ((fun c => PStr (String c EmptyString)) <$> list_ascii_of_string s)
  | _ => Raise not_iterable
  end.

Fixpoint for_each (items : list pyval) (body : pyval → M unit) : M unit :=
  match items with
  | [] => ret tt
  | x :: items' => body x ;; for_each items' body
  end.

(** Lines 69-74. *)
Definition init_session_state : M unit :=
  ss <- get_session_state ;;
  match dict_get "state" ss with
  | None =>
      put_session_state
        (dict_set "state"
           (PDict [ ("temp_pdf_path", PNone);
                    ("chatbot_manager", PNone);
                    ("messages", PList []) ])
           ss)
  | Some _ => ret tt
  end.

Definition menu : list string := ["🏠 Home"; "🤖 Chatbot"; "📧 Contact"].

(** Lines 84-89; the select box gives back the chosen entry of [menu]. *)
Definition sidebar : M unit :=
  emit (EvImage "bot.png") ;;
  emit (EvMarkdown "### 📚 Your Personal Document Assistant" false) ;;
  emit (EvMarkdown "---" false) ;;
  emit (EvWidget "Navigate").

Definition home_title : string := "📄 Document ChatBot".
Definition chatbot_title : string :=
  "🤖 Your Favourite Information Extractor (Llama 3.2 RAG 🦙)".
Definition contact_title : string := "📬 Contact Us".

Definition home_page : M unit :=
  emit (EvTitle home_title) ;;
  emit (EvMarkdown "
    Welcome to **Document ChatBot**! 🚀

    **Built using Open Source Stack (Llama 3.2, BGE Embeddings, and Qdrant running locally within a Docker Container.)**

    - **Upload Documents**: Easily upload your PDF documents.
    - **Summarize**: Get concise summaries of your documents.
    - **Chat**: Interact with your documents through our intelligent chatbot.

    Enhance your document management experience with Document Bot! 😊
    " false).

(** Column 1, lines 115-131. *)
Definition col1 (inp : Inputs) : M unit :=
  emit (EvHeader "📂 Upload Document") ;;
  emit (EvWidget "Upload a PDF") ;;
  match uploaded_file inp with
  | Some file =>
      emit (EvSuccess (PStr "📄 File Uploaded Successfully!")) ;;
      emit (EvMarkdown ("**Filename:** " +:+ file_name file) false) ;;
      emit (EvMarkdown ("**File Size:** " +:+ pretty (file_size file) +:+ " bytes")
              false) ;;
      emit (EvMarkdown "### 📖 PDF Preview" false) ;;
      display_pdf file ;;
      let temp_pdf_path := "doc.pdf" in
      write_file temp_pdf_path (file_data file) ;;
      state_set "temp_pdf_path" (PStr temp_pdf_path)
  | None => ret tt
  end.

(** Lines 141-149, the body of the [try]. *)
Definition col2_try : M unit :=
  embeddings_manager <- initialize_embeddings_manager ;;
  emit (EvSpinner "🔄 Embeddings are in process...") ;;
  pdf_path <- state_get "temp_pdf_path" ;;
  result <- call_create_embeddings embeddings_manager pdf_path ;;
  emit (EvSleep 1) ;;
  emit (EvSuccess result) ;;
  chatbot_manager <- state_get "chatbot_manager" ;;
  if negb (truthy chatbot_manager) then
    manager <- initialize_chatbot_manager ;;
    state_set "chatbot_manager" manager
  else ret tt.

(** Lines 151-158. *)
Definition col2_handlers : list (builtin_exc * (exn → M unit)) :=
  [ (FileNotFoundError, fun fnf_error => emit (EvError (exn_str fnf_error)));
    (ValueError, fun val_error => emit (EvError (exn_str val_error)));
    (ConnectionError, fun conn_error => emit (EvError (exn_str conn_error)));
    (Exception,
      fun e => emit (EvError ("An unexpected error occurred: " +:+ exn_str e))) ].

(** Column 2, lines 134-158. *)
Definition col2 (inp : Inputs) : M unit :=
  emit (EvHeader "🧠 Embeddings") ;;
  emit (EvWidget "✅ Create Embeddings") ;;
  if create_embeddings inp then
    temp_pdf_path <- state_get "temp_pdf_path" ;;
    if negb (truthy temp_pdf_path) then
      emit (EvWarning "⚠️ Please upload a PDF first.")
    else try_except col2_try col2_handlers
  else ret tt.

(** Line 168; the bubble and its text are recorded together. *)
Definition render_message (msg : pyval) : M unit :=
  role <- lift (subscript msg "role") ;;
  content <- lift (subscript msg "content") ;;
  emit (EvChatMessage role content).

Definition error_answer (e : exn) : pyval :=
  PStr ("⚠️ An error occurred while processing your request: " +:+ exn_str e).

(** Lines 171-182, what happens once a message has been typed. *)
Definition send_message (user_input : string) : M unit :=
  emit (EvChatMessage (PStr "user") (PStr user_input)) ;;
  messages_append (PDict [("role", PStr "user"); ("content", PStr user_input)]) ;;
  emit (EvSpinner "🤖 Responding...") ;;
  answer <- try_except
              (chatbot_manager <- state_get "chatbot_manager" ;;
               answer <- call_get_response chatbot_manager (PStr user_input) ;;
               emit (EvSleep 1) ;;
               ret answer)
              [ (Exception, fun e => ret (error_answer e)) ] ;;
  emit (EvChatMessage (PStr "assistant") answer) ;;
  messages_append (PDict [("role", PStr "assistant"); ("content", answer)]).

(** Column 3, lines 161-182. *)
Definition col3 (inp : Inputs) : M unit :=
  emit (EvHeader "💬 Chat with Document") ;;
  chatbot_manager <- state_get "chatbot_manager" ;;
  if negb (truthy chatbot_manager) then
    emit (EvInfo "🤖 Please upload a PDF and create embeddings to start chatting.")
  else
    messages <- state_get "messages" ;;
    items <- lift (iterate messages) ;;
    for_each items render_message ;;
    emit (EvWidget "Type your message here...") ;;
    match chat_input inp with
    | Some user_input =>
        if truthy (PStr user_input) then send_message user_input else ret tt
    | None => ret tt
    end.

Definition chatbot_page (inp : Inputs) : M unit :=
  emit (EvTitle chatbot_title) ;;
  emit (EvMarkdown "---" false) ;;
  col1 inp ;;
  col2 inp ;;
  col3 inp.

Definition contact_page : M unit :=
  emit (EvTitle contact_title) ;;
  emit (EvMarkdown "
    Would love to hear from you! Whether you have a question, feedback, or want to contribute, feel free to reach out.

    - **Email:** [developer@example.com](mailto:damilolagboye@gmail.com) ✉️
    
    " false).

Definition footer : M unit :=
  emit (EvMarkdown "---" false) ;;
  emit (EvMarkdown "...Document ChatBot by Cartel. 🛡️" false).

(** Lines 92-192: the [if]/[elif] chain over the chosen menu entry. *)
Definition page (inp : Inputs) : M unit :=
  if String.eqb (choice inp) "🏠 Home" then home_page
  else if String.eqb (choice inp) "🤖 Chatbot" then chatbot_page inp
  else if String.eqb (choice inp) "📧 Contact" then contact_page
  else ret tt.

(** One execution of the whole script. *)
Definition script (inp : Inputs) : M unit :=
  init_session_state ;;
  emit (EvSetPageConfig "Information Extractor App" "wide" "expanded") ;;
  sidebar ;;
  page inp ;;
  footer.

Definition run (inp : Inputs) (w : World) : World := snd (script inp w).

(** A session: the script is executed once for every interaction, each
    time on the world the execution before left behind. *)
Definition session_from (w : World) (inps : list Inputs) : World :=
  fold_left (fun w inp => run inp w) inps w.

End Script.

(** The world a session starts in: nothing in [session_state], nothing on
    the page, whatever files the working directory has. *)
Definition initial_world (fs : gmap string (list byte)) : World :=
  {| session_state := []; files := fs; trace := []; next_id := 0 |}.

Definition session (B : Backend) (fs : gmap string (list byte))
  (inps : list Inputs) : World :=
  session_from B (initial_world fs) inps.

(** ** Reading a world *)

(** The session state the script creates and keeps: one entry, ['state'],
    holding a dict of three fields. *)
Definition mk_state (p m : pyval) (ms : list pyval) : dict :=
  [ ("state",
     PDict [ ("temp_pdf_path", p); ("chatbot_manager", m);
             ("messages", PList ms) ]) ].

Definition temp_pdf_path_of (w : World) : outcome pyval :=
  fst (state_get "temp_pdf_path" w).

Definition chatbot_manager_of (w : World) : outcome pyval :=
  fst (state_get "chatbot_manager" w).

Definition messages_of (w : World) : list pyval :=
  match fst (state_get "messages" w) with
  | Ret (PList ms) => ms
  | _ => []
  end.

(** What happened between two worlds of which the second continues the
    first. *)
Definition new_events (w w' : World) : list event :=
  drop (List.length (trace w)) (trace w').

Definition with_events (w : World) (evs : list event) : World :=
  {| session_state := session_state w; files := files w;
     trace := trace w ++ evs; next_id := next_id w |}.

Definition turn (role : string) (content : pyval) : pyval :=
  PDict [("role", PStr role); ("content", content)].

(** A chat turn: a dict of exactly the keys ['role'] and ['content'], the
    role being one of the two speakers. *)
Definition message_ok (msg : pyval) : Prop :=
  ∃ role content,
    msg = turn role content ∧ (role = "user" ∨ role = "assistant").

Definition message_event (msg : pyval) : event :=
  match subscript msg "role", subscript msg "content" with
  | Ret role, Ret content => EvChatMessage role content
  | _, _ => EvChatMessage PNone PNone
  end.

Definition is_title (e : event) : option string :=
  match e with EvTitle t => Some t | _ => None end.

Definition titles (evs : list event) : list string := omap is_title evs.

Definition is_ret {A} (o : outcome A) : bool :=
  match o with Ret _ => true | Raise _ => false end.

(** ** The order of uploads, embeddings and answers *)

(** How far a session has got: whether a document was saved, whether a
    call of [create_embeddings] has returned. *)
Record progress : Type := { uploaded : bool; embedded : bool }.

Definition start : progress := {| uploaded := false; embedded := false |}.

(** One event seen by an observer who rejects a [create_embeddings] call
    before any upload, and a [get_response] call before any embedding. *)
Definition observe (s : progress) (e : event) : option progress :=
  match e with
  | EvWriteFile _ _ => Some {| uploaded := true; embedded := embedded s |}
  | EvCreateEmbeddings _ _ res =>
      if uploaded s
      then Some {| uploaded := true; embedded := embedded s || is_ret res |}
      else None
  | EvGetResponse _ _ _ => if embedded s then Some s else None
  | _ => Some s
  end.

Fixpoint monitor (s : progress) (evs : list event) : option progress :=
  match evs with
  | [] => Some s
  | e :: evs' =>
      match observe s e with
      | Some s' => monitor s' evs'
      | None => None
      end
  end.

Definition is_upload (e : event) : Prop :=
  match e with EvWriteFile _ _ => True | _ => False end.

Definition is_embedding_success (e : event) : Prop :=
  match e with EvCreateEmbeddings _ _ (Ret _) => True | _ => False end.

(** In a trace in order, every call of [get_response] comes after a call of
    [create_embeddings] that returned, and every call of
    [create_embeddings] after an upload. *)
Definition in_order (tr : list event) : Prop :=
  ∀ pre e post, tr = pre ++ e :: post →
    match e with
    | EvGetResponse _ _ _ => ∃ e', e' ∈ pre ∧ is_embedding_success e'
    | EvCreateEmbeddings _ _ _ => ∃ e', e' ∈ pre ∧ is_upload e'
    | _ => True
    end.

(** ** What holds of every world of a session *)

Definition path_ok (p : pyval) (s : progress) : Prop :=
  p = PNone ∨ (p = PStr "doc.pdf" ∧ uploaded s = true).

Definition manager_ok (m : pyval) (s : progress) : Prop :=
  m = PNone ∨ ((∃ id, m = PObj ChatbotManager id) ∧ embedded s = true).

(** A question and the answer given to it, as the two turns the log keeps. *)
Definition exchange (qa : pyval * pyval) : list pyval :=
  [turn "user" (fst qa); turn "assistant" (snd qa)].

(** A log in which every user turn is followed by an assistant turn. *)
Definition paired (ms : list pyval) : Prop :=
  ∃ qas : list (pyval * pyval), ms = List.concat (exchange <$> qas).

(** What [get_response] raises is an instance of [Exception], not one of
    the exceptions by which Python leaves a program ([SystemExit],
    [KeyboardInterrupt]). *)
Definition chat_errors_are_exceptions (B : Backend) : Prop :=
  ∀ w id query e,
    ChatbotManager_get_response B w id query = Raise e →
    isinstance e Exception = true.

(** The world after at least one execution of the script. *)
Definition ready (B : Backend) (w : World) : Prop :=
  ∃ p m ms s,
    session_state w = mk_state p m ms ∧
    monitor start (trace w) = Some s ∧
    path_ok p s ∧ manager_ok m s ∧ Forall message_ok ms ∧
    (chat_errors_are_exceptions B → paired ms).

(** The world before the first execution. *)
Definition fresh (w : World) : Prop :=
  session_state w = [] ∧ trace w = [].

(** How a world relates to an earlier one of the same session. *)
Definition extends (w w' : World) : Prop :=
  messages_of w `prefix_of` messages_of w' ∧
  (∀ id, chatbot_manager_of w = Ret (PObj ChatbotManager id) →
         chatbot_manager_of w' = Ret (PObj ChatbotManager id)) ∧
  (temp_pdf_path_of w = Ret (PStr "doc.pdf") →
   temp_pdf_path_of w' = Ret (PStr "doc.pdf")) ∧
  ∃ evs, trace w' = trace w ++ evs.

(** One or more steps of a session: where they lead, how that relates to
    where they began, and the page titles shown on the way. *)
Definition step (B : Backend) (ts : list string) (w w' : World) : Prop :=
  ready B w' ∧ extends w w' ∧ titles (new_events w w') = ts.

(** An event the observer lets pass without noting anything. *)
Definition inert (e : event) : Prop := ∀ s, observe s e = Some s.

(** The script up to the page: lines 69-89. *)
Definition preamble : M unit :=
  init_session_state ;;
  emit (EvSetPageConfig "Information Extractor App" "wide" "expanded") ;;
  sidebar.

(** The title of the page a menu entry leads to. *)
Definition page_titles (c : string) : list string :=
  if String.eqb c "🏠 Home" then [home_title]
  else if String.eqb c "🤖 Chatbot" then [chatbot_title]
  else if String.eqb c "📧 Contact" then [contact_title]
  else [].

(** ** Calls and failures in a trace *)

Definition is_create_embeddings (e : event) : option (pyval * pyval * outcome pyval) :=
  match e with
  | EvCreateEmbeddings self pdf_path res => Some (self, pdf_path, res)
  | _ => None
  end.

Definition is_get_response (e : event) : option (pyval * pyval * outcome pyval) :=
  match e with
  | EvGetResponse self query res => Some (self, query, res)
  | _ => None
  end.

Definition is_new_chatbot_manager (e : event) : option (outcome pyval) :=
  match e with
  | EvNewManager ChatbotManager _ res => Some res
  | _ => None
  end.

Definition is_raise (e : event) : option exn :=
  match e with
  | EvNewManager _ _ (Raise x)
  | EvCreateEmbeddings _ _ (Raise x)
  | EvGetResponse _ _ (Raise x) => Some x
  | _ => None
  end.

Definition create_embeddings_calls (evs : list event) := omap is_create_embeddings evs.
Definition get_response_calls (evs : list event) := omap is_get_response evs.
Definition chatbot_manager_constructions (evs : list event) :=
  omap is_new_chatbot_manager evs.

(** The exceptions the managers raised. *)
Definition raised (evs : list event) : list exn := omap is_raise evs.

(** The text lines 151-158 show for an exception. *)
Definition embedding_error_message (e : exn) : string :=
  if isinstance e FileNotFoundError then exn_str e
  else if isinstance e ValueError then exn_str e
  else if isinstance e ConnectionError then exn_str e
  else "An unexpected error occurred: " +:+ exn_str e.

(** ** Sample collaborators and interactions *)

Definition backend_ok : Backend :=
  {| EmbeddingsManager_init := fun _ _ => None;
     EmbeddingsManager_create_embeddings :=
       fun _ _ _ => Ret (PStr "Vector DB created");
     ChatbotManager_init := fun _ _ => None;
     ChatbotManager_get_response := fun _ _ _ => Ret (PStr "42") |}.

Definition qdrant_down : exn :=
  {| exn_class := Derived "ResponseHandlingException" (Builtin ConnectionRefusedError);
     exn_str := "Failed to connect to Qdrant" |}.

Definition llm_failed : exn :=
  {| exn_class := Builtin RuntimeError; exn_str := "model not found" |}.

Definition backend_failing : Backend :=
  {| EmbeddingsManager_init := fun _ _ => None;
     EmbeddingsManager_create_embeddings := fun _ _ _ => Raise qdrant_down;
     ChatbotManager_init := fun _ _ => None;
     ChatbotManager_get_response := fun _ _ _ => Raise llm_failed |}.



Definition sample_pdf : UploadedFile :=
  {| file_name := "paper.pdf"; file_size := 3; file_data := [x4d; x61; x6e] |}.

Definition other_pdf : UploadedFile :=
  {| file_name := "thesis.pdf"; file_size := 2; file_data := [x4d; x61] |}.

Definition visit (c : string) : Inputs :=
  {| choice := c; uploaded_file := None; create_embeddings := false;
     chat_input := None |}.

Definition upload_and_embed (f : UploadedFile) : Inputs :=
  {| choice := "🤖 Chatbot"; uploaded_file := Some f;
     create_embeddings := true; chat_input := None |}.

Definition ask (q : string) : Inputs :=
  {| choice := "🤖 Chatbot"; uploaded_file := Some sample_pdf;
     create_embeddings := true; chat_input := Some q |}.

Definition sample_world (p m : pyval) (ms : list pyval) (tr : list event)
  : World :=
  {| session_state := mk_state p m ms; files := ∅; trace := tr; next_id := 7 |}.

(** ** The markup of the preview *)

(** The characters of a base64 text. *)
Definition is_b64_char (c : ascii) : bool :=
  existsb (Ascii.eqb c) (list_ascii_of_string b64_alphabet)
  || Ascii.eqb c "="%char.

(** The string line 30 builds. *)
Definition pdf_display (file : UploadedFile) : string :=
  "<iframe src=" +:+ dquote +:+ "data:application/pdf;base64,"
  +:+ b64encode (file_data file)
  +:+ dquote +:+ " width=" +:+ dquote +:+ "100%" +:+ dquote
  +:+ " height=" +:+ dquote +:+ "600" +:+ dquote
  +:+ " type=" +:+ dquote +:+ "application/pdf" +:+ dquote +:+ "></iframe>".

(** ** The paths through the columns *)

(** The keyword arguments of lines 41-47 and of lines 57-65. *)
Definition config (k : string) : pyval := default PNone (dict_get k CONFIG).

Definition embeddings_kwargs : dict :=
  [ ("model_name", config "embedding_model"); ("device", config "device");
    ("encode_kwargs", config "encode_kwargs");
    ("qdrant_url", config "qdrant_url");
    ("collection_name", config "collection_name") ].

Definition chatbot_kwargs : dict :=
  [ ("model_name", config "embedding_model"); ("device", config "device");
    ("encode_kwargs", config "encode_kwargs");
    ("llm_model", config "llm_model");
    ("llm_temperature", config "llm_temperature");
    ("qdrant_url", config "qdrant_url");
    ("collection_name", config "collection_name") ].

(** What column 1 shows and does, and what it leaves behind. *)
Definition col1_events (inp : Inputs) : list event :=
  [EvHeader "📂 Upload Document"; EvWidget "Upload a PDF"] ++
  match uploaded_file inp with
  | Some file =>
      [ EvSuccess (PStr "📄 File Uploaded Successfully!");
        EvMarkdown ("**Filename:** " +:+ file_name file) false;
        EvMarkdown ("**File Size:** " +:+ pretty (file_size file) +:+ " bytes")
          false;
        EvMarkdown "### 📖 PDF Preview" false;
        EvMarkdown (pdf_display file) true;
        EvWriteFile "doc.pdf" (file_data file) ]
  | None => []
  end.

Definition upload_path (inp : Inputs) (p : pyval) : pyval :=
  match uploaded_file inp with Some _ => PStr "doc.pdf" | None => p end.

Definition upload_files (inp : Inputs) (fs : gmap string (list byte))
  : gmap string (list byte) :=
  match uploaded_file inp with
  | Some file => <["doc.pdf" := file_data file]> fs
  | None => fs
  end.

(** Whether one of the clauses of lines 151-158 takes an exception. *)
Definition caught_by_col2 (e : exn) : bool :=
  isinstance e FileNotFoundError || isinstance e ValueError
  || isinstance e ConnectionError || isinstance e Exception.

(** Where an exception ends that is raised in the [try] of column 2 after
    the events [evs]: in an error message, or outside the column. *)
Definition settle (e : exn) (evs : list event) : outcome unit * list event :=
  if caught_by_col2 e
  then (Ret tt, evs ++ [EvError (embedding_error_message e)])
  else (Raise e, evs).

Definition col2_frame : list event :=
  [EvHeader "🧠 Embeddings"; EvWidget "✅ Create Embeddings"].

Definition embedding_started (n : nat) : list event :=
  [ EvNewManager EmbeddingsManager embeddings_kwargs
      (Ret (PObj EmbeddingsManager n));
    EvSpinner "🔄 Embeddings are in process..." ].

Definition embedding_done (n : nat) (p result : pyval) : list event :=
  embedding_started n ++
  [ EvCreateEmbeddings (PObj EmbeddingsManager n) p (Ret result);
    EvSleep 1; EvSuccess result ].

(** The paths through column 2 after its header and its box, for the
    stored path [p], the stored manager [m] and the next free identity
    [n]: how the column ends, what happens on the way, the manager stored
    afterwards and the next free identity. *)
Inductive col2_case (inp : Inputs) (p m : pyval) (n : nat)
  : outcome unit → list event → pyval → nat → Prop :=
  | col2_idle :
      create_embeddings inp = false →
      col2_case inp p m n (Ret tt) [] m n
  | col2_warned :
      create_embeddings inp = true → truthy p = false →
      col2_case inp p m n (Ret tt)
        [EvWarning "⚠️ Please upload a PDF first."] m n
  | col2_no_embeddings_manager e res evs :
      create_embeddings inp = true → truthy p = true →
      settle e [EvNewManager EmbeddingsManager embeddings_kwargs (Raise e)]
        = (res, evs) →
      col2_case inp p m n res evs m n
  | col2_embeddings_failed e res evs :
      create_embeddings inp = true → truthy p = true →
      settle e (embedding_started n ++
                [EvCreateEmbeddings (PObj EmbeddingsManager n) p (Raise e)])
        = (res, evs) →
      col2_case inp p m n res evs m (S n)
  | col2_embedded result :
      create_embeddings inp = true → truthy p = true → truthy m = true →
      col2_case inp p m n (Ret tt) (embedding_done n p result) m (S n)
  | col2_no_chatbot_manager result e res evs :
      create_embeddings inp = true → truthy p = true → truthy m = false →
      settle e (embedding_done n p result ++
                [EvNewManager ChatbotManager chatbot_kwargs (Raise e)])
        = (res, evs) →
      col2_case inp p m n res evs m (S n)
  | col2_chatbot_ready result :
      create_embeddings inp = true → truthy p = true → truthy m = false →
      col2_case inp p m n (Ret tt)
        (embedding_done n p result ++
         [EvNewManager ChatbotManager chatbot_kwargs
            (Ret (PObj ChatbotManager (S n)))])
        (PObj ChatbotManager (S n)) (S (S n)).

(** The message typed, if one was. *)
Definition typed (inp : Inputs) : option string :=
  match chat_input inp with
  | Some q => if truthy (PStr q) then Some q else None
  | None => None
  end.

(** The stored turns shown again, the input box, and what follows it. *)
Definition chat_events (ms : list pyval) (then_ : list event) : list event :=
  (message_event <$> ms) ++ EvWidget "Type your message here..." :: then_.

Definition asked (m : pyval) (q : string) (res : outcome pyval) : list event :=
  [ EvChatMessage (PStr "user") (PStr q); EvSpinner "🤖 Responding...";
    EvGetResponse m (PStr q) res ].

(** The paths through column 3 after its header, for the stored manager
    [m] and the stored messages [ms]: how the column ends, what happens on
    the way and the messages stored afterwards. *)
Inductive col3_case (inp : Inputs) (m : pyval) (ms : list pyval)
  : outcome unit → list event → list pyval → Prop :=
  | col3_hint :
      truthy m = false →
      col3_case inp m ms (Ret tt)
        [EvInfo "🤖 Please upload a PDF and create embeddings to start chatting."]
        ms
  | col3_idle :
      truthy m = true → typed inp = None →
      col3_case inp m ms (Ret tt) (chat_events ms []) ms
  | col3_answered q answer :
      truthy m = true → typed inp = Some q →
      col3_case inp m ms (Ret tt)
        (chat_events ms
           (asked m q (Ret answer) ++
            [EvSleep 1; EvChatMessage (PStr "assistant") answer]))
        (ms ++ [turn "user" (PStr q); turn "assistant" answer])
  | col3_apologised q e :
      truthy m = true → typed inp = Some q →
      isinstance e Exception = true →
      col3_case inp m ms (Ret tt)
        (chat_events ms
           (asked m q (Raise e) ++
            [EvChatMessage (PStr "assistant") (error_answer e)]))
        (ms ++ [turn "user" (PStr q); turn "assistant" (error_answer e)])
  | col3_escaped q e :
      truthy m = true → typed inp = Some q →
      isinstance e Exception = false →
      col3_case inp m ms (Raise e)
        (chat_events ms (asked m q (Raise e)))
        (ms ++ [turn "user" (PStr q)]).


Definition page_head : list event :=
  [EvTitle chatbot_title; EvMarkdown "---" false].

(** The chatbot page: column 3 is reached when column 2 ends normally. *)
Inductive chatbot_page_case (inp : Inputs) (p m : pyval) (ms : list pyval)
  (n : nat) : outcome unit → list event → pyval → list pyval → nat → Prop :=
  | chatbot_page_stopped e evs2 m' n' :
      col2_case inp (upload_path inp p) m n (Raise e) evs2 m' n' →
      chatbot_page_case inp p m ms n (Raise e)
        (page_head ++ col1_events inp ++ col2_frame ++ evs2) m' ms n'
  | chatbot_page_through evs2 m' n' res evs3 ms' :
      col2_case inp (upload_path inp p) m n (Ret tt) evs2 m' n' →
      col3_case inp m' ms res evs3 ms' →
      chatbot_page_case inp p m ms n res
        (page_head ++ col1_events inp ++ col2_frame ++ evs2 ++
         EvHeader "💬 Chat with Document" :: evs3)
        m' ms' n'.

(** ** What a trace tells *)

Definition is_write (e : event) : option (string * list byte) :=
  match e with EvWriteFile path data => Some (path, data) | _ => None end.

Definition is_chatbot_built (e : event) : option pyval :=
  match e with
  | EvNewManager ChatbotManager _ (Ret obj) => Some obj
  | _ => None
  end.

Definition is_embeddings_construction (e : event) : option (outcome pyval) :=
  match e with
  | EvNewManager EmbeddingsManager _ res => Some res
  | _ => None
  end.

Definition is_bubble (e : event) : option event :=
  match e with EvChatMessage _ _ => Some e | _ => None end.

Definition is_page_config (e : event) : option event :=
  match e with EvSetPageConfig _ _ _ => Some e | _ => None end.

(** The files written, the chatbot managers that came into being, the
    attempts to build an embeddings manager, the chat bubbles shown. *)
Definition writes (evs : list event) := omap is_write evs.
Definition chatbot_managers_built (evs : list event) := omap is_chatbot_built evs.
Definition embeddings_constructions (evs : list event) :=
  omap is_embeddings_construction evs.
Definition bubbles (evs : list event) := omap is_bubble evs.
Definition page_configs (evs : list event) := omap is_page_config evs.

(** The files after the writes [ws], done in their order. *)
Definition write_all (ws : list (string * list byte))
  (fs : gmap string (list byte)) : gmap string (list byte) :=
  fold_left (fun fs w => <[fst w := snd w]> fs) ws fs.

(** An event that goes by the configuration: a manager built with the
    keyword arguments of [CONFIG], a file written under "doc.pdf". *)
Definition configured (e : event) : Prop :=
  match e with
  | EvNewManager EmbeddingsManager kwargs _ => kwargs = embeddings_kwargs
  | EvNewManager ChatbotManager kwargs _ => kwargs = chatbot_kwargs
  | EvWriteFile path _ => path = "doc.pdf"
  | _ => True
  end.

(** How an execution may end: normally, or with an exception a manager
    raised that is not an instance of [Exception]. *)
Definition ends_well {A} (res : outcome A) (evs : list event) : Prop :=
  match res with
  | Ret _ => True
  | Raise e => isinstance e Exception = false ∧ e ∈ raised evs
  end.

(** What the side bar and the page configuration show. *)
Definition preamble_events : list event :=
  [ EvSetPageConfig "Information Extractor App" "wide" "expanded";
    EvImage "bot.png";
    EvMarkdown "### 📚 Your Personal Document Assistant" false;
    EvMarkdown "---" false;
    EvWidget "Navigate" ].

Definition footer_events : list event :=
  [ EvMarkdown "---" false;
    EvMarkdown "...Document ChatBot by Cartel. 🛡️" false ].



(** An event that only shows fixed text. *)
Definition static (e : event) : Prop :=
  match e with EvTitle _ | EvMarkdown _ _ => True | _ => False end.

(** The page, path by path: for the stored path [p], manager [m] and
    messages [ms], the next free identity [n] and the files [fs], how the
    page ends, what happens on the way, and the path, manager, messages,
    files and next free identity afterwards. *)
Inductive page_case (inp : Inputs) (p m : pyval) (ms : list pyval) (n : nat)
  (fs : gmap string (list byte))
  : outcome unit → list event → pyval → pyval → list pyval →
    gmap string (list byte) → nat → Prop :=
  | page_static evs :
      choice inp ≠ "🤖 Chatbot" →
      Forall static evs → titles evs = page_titles (choice inp) →
      page_case inp p m ms n fs (Ret tt) evs p m ms fs n
  | page_chatbot res evs m' ms' n' :
      choice inp = "🤖 Chatbot" →
      chatbot_page_case inp p m ms n res evs m' ms' n' →
      page_case inp p m ms n fs res evs (upload_path inp p) m' ms'
        (upload_files inp fs) n'.

(** The state an execution starts from once lines 69-74 are done. *)
Definition opens_with (w : World) (p m : pyval) (ms : list pyval) : Prop :=
  session_state w = mk_state p m ms ∨
  (session_state w = [] ∧ p = PNone ∧ m = PNone ∧ ms = []).

(** An event that records what a manager gave: a failure of a constructor
    is one the constructor raised, the result of a method is the one the
    method of that object returned or raised, and methods are called on
    objects of their class only. *)
Definition answered (B : Backend) (e : event) : Prop :=
  match e with
  | EvNewManager EmbeddingsManager kwargs (Raise x) =>
      ∃ w, EmbeddingsManager_init B w kwargs = Some x
  | EvNewManager ChatbotManager kwargs (Raise x) =>
      ∃ w, ChatbotManager_init B w kwargs = Some x
  | EvCreateEmbeddings (PObj EmbeddingsManager id) pdf_path res =>
      ∃ w, EmbeddingsManager_create_embeddings B w id pdf_path = res
  | EvGetResponse (PObj ChatbotManager id) query res =>
      ∃ w, ChatbotManager_get_response B w id query = res
  | EvCreateEmbeddings _ _ _ | EvGetResponse _ _ _ => False
  | _ => True
  end.


(** The turns a call of [get_response] leaves in the log: the user's with
    the question, and the assistant's unless an exception got away. *)
Definition turns_of_call (c : pyval * pyval * outcome pyval) : list pyval :=
  turn "user" (snd (fst c)) ::
  match snd c with
  | Ret answer => [turn "assistant" answer]
  | Raise e =>
      if isinstance e Exception then [turn "assistant" (error_answer e)]
      else []
  end.

(** The data an execution saves: that of the file in the uploader, when
    the chatbot page is shown. *)
Definition saved (inp : Inputs) : option (list byte) :=
  if String.eqb (choice inp) "🤖 Chatbot"
  then file_data <$> uploaded_file inp
  else None.

Definition saved_writes (inp : Inputs) : list (string * list byte) :=
  match saved inp with Some data => [("doc.pdf", data)] | None => [] end.


(** What holds of every world of a session that began with the files
    [fs]: the state has its shape or is still to be created; the messages
    are chat turns, and there are none without a manager; the chatbot
    managers that came into being are the stored one; the log is what the
    calls of [get_response] left; managers were built and files written as
    the configuration says; the files are the first ones with all that was
    written; a path is stored when something was written. *)
Definition tidy (fs : gmap string (list byte)) (w : World) : Prop :=
  ∃ p m ms,
    opens_with w p m ms ∧
    (m = PNone ∨ ∃ id, m = PObj ChatbotManager id) ∧
    Forall message_ok ms ∧
    (truthy m = false → ms = []) ∧
    chatbot_managers_built (trace w) = (if truthy m then [m] else []) ∧
    ms = get_response_calls (trace w) ≫= turns_of_call ∧
    Forall configured (trace w) ∧
    files w = write_all (writes (trace w)) fs ∧
    p = match writes (trace w) with [] => PNone | _ => PStr "doc.pdf" end.

(** ** Symbolic execution of the script *)

Ltac mstep :=
  cbv beta iota zeta delta
    [bind ret raise lift emit try_except find_handler
     get_session_state put_session_state write_file new_manager
     call_create_embeddings call_get_response
     initialize_embeddings_manager initialize_chatbot_manager
     state_get state_set messages_append subscript store_subscript iterate
     dict_get dict_set mk_state CONFIG truthy
     init_session_state sidebar home_page contact_page footer page script run
     chatbot_page col1 col2 col2_try col2_handlers col3 send_message
     render_message display_pdf with_events
     session_state files trace next_id
     choice uploaded_file create_embeddings chat_input
     String.eqb Ascii.eqb Bool.eqb negb fst snd].

Ltac oracle :=
  match goal with
  | |- context [EmbeddingsManager_init ?B ?w ?k] =>
      destruct (EmbeddingsManager_init B w k) eqn:?
  | |- context [EmbeddingsManager_create_embeddings ?B ?w ?i ?p] =>
      destruct (EmbeddingsManager_create_embeddings B w i p) eqn:?
  | |- context [ChatbotManager_init ?B ?w ?k] =>
      destruct (ChatbotManager_init B w k) eqn:?
  | |- context [ChatbotManager_get_response ?B ?w ?i ?p] =>
      destruct (ChatbotManager_get_response B w i p) eqn:?
  | |- context [isinstance ?e ?c] => destruct (isinstance e c) eqn:?
  end.

Ltac execute := mstep; repeat (oracle; mstep).

(** ** The monad and the loop *)

Lemma monitor_app s evs1 evs2 :
  monitor s (evs1 ++ evs2) =
  match monitor s evs1 with
  | Some s' => monitor s' evs2
  | None => None
  end.
Proof.
  revert s. induction evs1 as [|e evs1 IH]; intros s; simpl; [done|].
  destruct (observe s e); [apply IH | done].
Qed.

Lemma message_event_chat msg : ∃ r c, message_event msg = EvChatMessage r c.
Proof.
  unfold message_event.
  destruct (subscript msg "role"), (subscript msg "content"); eauto.
Qed.

Lemma monitor_messages s (ms : list pyval) :
  monitor s (message_event <$> ms) = Some s.
Proof.
  induction ms as [|msg ms IH]; simpl; [done|].
  destruct (message_event_chat msg) as (r & c & ->). simpl. exact IH.
Qed.

Lemma titles_app evs1 evs2 : titles (evs1 ++ evs2) = titles evs1 ++ titles evs2.
Proof. unfold titles. apply omap_app. Qed.

Lemma titles_messages (ms : list pyval) : titles (message_event <$> ms) = [].
Proof.
  induction ms as [|msg ms IH]; simpl; [done|].
  destruct (message_event_chat msg) as (r & c & ->). exact IH.
Qed.

Lemma render_message_ok msg ss fs tr n :
  message_ok msg →
  render_message msg (Build_World ss fs tr n) =
  (Ret tt, Build_World ss fs (tr ++ [message_event msg]) n).
Proof. intros (role & content & -> & _). reflexivity. Qed.

Lemma for_each_render ms ss fs tr n :
  Forall message_ok ms →
  for_each ms render_message (Build_World ss fs tr n) =
  (Ret tt, Build_World ss fs (tr ++ (message_event <$> ms)) n).
Proof.
  intros Hms. revert tr.
  induction Hms as [|msg ms Hmsg _ IH]; intros tr; simpl.
  - by rewrite app_nil_r.
  - unfold bind. rewrite (render_message_ok _ _ _ _ _ Hmsg), IH.
    by rewrite <- app_assoc.
Qed.

Lemma new_events_app w w' evs :
  trace w' = trace w ++ evs → new_events w w' = evs.
Proof. intros H. unfold new_events. rewrite H. by rewrite drop_app_length. Qed.

(** ** Steps of a session *)

Lemma paired_snoc ms q a :
  paired ms → paired (ms ++ [turn "user" q; turn "assistant" a]).
Proof.
  intros [qas ->]. exists (qas ++ [(q, a)]).
  by rewrite fmap_app, concat_app.
Qed.

Lemma step_intro B p m ms fs tr n p' m' ms' fs' n' evs s s' ts :
  monitor start tr = Some s →
  monitor s evs = Some s' →
  path_ok p' s' → manager_ok m' s' → Forall message_ok ms' →
  (chat_errors_are_exceptions B → paired ms') →
  ms `prefix_of` ms' →
  (∀ id, m = PObj ChatbotManager id → m' = m) →
  (p = PStr "doc.pdf" → p' = p) →
  titles evs = ts →
  step B ts (Build_World (mk_state p m ms) fs tr n)
            (Build_World (mk_state p' m' ms') fs' (tr ++ evs) n').
Proof.
  intros Htr Hevs Hp Hm Hms Hpair Hpre Hkeep Hpath Hts. repeat split.
  - exists p', m', ms', s'. simpl. rewrite monitor_app, Htr. by repeat split.
  - exact Hpre.
  - unfold chatbot_manager_of. simpl. intros id [= ->]. by rewrite (Hkeep id).
  - unfold temp_pdf_path_of. simpl. intros [= ->]. by rewrite Hpath.
  - by exists evs.
  - by rewrite (new_events_app _ _ evs).
Qed.

Ltac side :=
  match goal with
  | |- path_ok _ _ => unfold path_ok; simpl; auto
  | |- manager_ok _ _ =>
      unfold manager_ok; simpl; rewrite ?orb_true_r; eauto
  | |- Forall message_ok _ =>
      rewrite ?Forall_app; repeat split; try assumption;
      repeat constructor; unfold message_ok; eauto
  | |- chat_errors_are_exceptions _ → paired _ =>
      let Hpol := fresh "Hpol" in
      intros Hpol;
      first [ by auto
            | rewrite <- ?app_assoc; apply paired_snoc; by auto
            | exfalso;
              match goal with
              | Heq : ChatbotManager_get_response _ _ _ _ = Raise _ |- _ =>
                  apply Hpol in Heq; congruence
              end ]
  | |- _ `prefix_of` _ =>
      first [ reflexivity
            | apply prefix_app_r; reflexivity
            | do 2 apply prefix_app_r; reflexivity ]
  | |- titles _ = _ =>
      repeat (progress (rewrite ?titles_app, ?titles_messages; cbn));
      reflexivity
  | |- _ => intros; first [reflexivity | congruence]
  end.

Ltac leaf :=
  rewrite <- ?app_assoc;
  eapply step_intro;
  [ eassumption
  | repeat (progress (rewrite ?monitor_app, ?monitor_messages; cbn));
    reflexivity
  | .. ]; side.

(** Takes a world of a running session apart. *)
Ltac open_ready H :=
  let p := fresh "p" in let m := fresh "m" in let ms := fresh "ms" in
  let s := fresh "s" in let Hss := fresh "Hss" in
  let Hmon := fresh "Hmon" in let Hms := fresh "Hms" in
  let Hpair := fresh "Hpair" in
  let id := fresh "id" in let up := fresh "up" in let em := fresh "em" in
  destruct H as (p & m & ms & s & Hss & Hmon & [->|[-> ?]]
                 & [->|[[id ->] ?]] & Hms & Hpair);
  destruct s as [up em]; simpl in *; subst;
  match goal with
  | w : World |- _ => destruct w as [?ss ?fs ?tr ?n]; simpl in *; subst
  end.

Lemma col1_step B inp w :
  ready B w → step B [] w (snd (col1 inp w)) ∧ fst (col1 inp w) = Ret tt.
Proof.
  intros H. open_ready H.
  all: destruct inp as [ch [f|] ce ci]; execute; (split; [leaf|reflexivity]).
Qed.

Lemma col2_step B inp w : ready B w → step B [] w (snd (col2 B inp w)).
Proof.
  intros H. open_ready H.
  all: destruct inp as [ch uf [|] ci]; execute; leaf.
Qed.

Lemma col3_step B inp w : ready B w → step B [] w (snd (col3 B inp w)).
Proof.
  intros H. open_ready H.
  all: destruct inp as [ch uf ce [[|c q]|]]; execute;
    rewrite ?for_each_render by assumption; execute; leaf.
Qed.

Lemma extends_refl w : extends w w.
Proof.
  repeat split; auto. exists []. by rewrite app_nil_r.
Qed.

Lemma extends_trans w1 w2 w3 : extends w1 w2 → extends w2 w3 → extends w1 w3.
Proof.
  intros (Hm1 & Hc1 & Hp1 & evs1 & Ht1) (Hm2 & Hc2 & Hp2 & evs2 & Ht2).
  repeat split; [by etrans | by auto | by auto |].
  exists (evs1 ++ evs2). by rewrite Ht2, Ht1, app_assoc.
Qed.

Lemma step_refl B w : ready B w → step B [] w w.
Proof.
  intros H. repeat split; auto using extends_refl.
  - apply extends_refl.
  - rewrite (new_events_app w w []); [done | by rewrite app_nil_r].
Qed.

Lemma step_trans B ts1 ts2 w1 w2 w3 :
  step B ts1 w1 w2 → step B ts2 w2 w3 → step B (ts1 ++ ts2) w1 w3.
Proof.
  intros (_ & He1 & Ht1) (Hr & He2 & Ht2). split; [done|]. split.
  - by eapply extends_trans.
  - destruct He1 as (_ & _ & _ & evs1 & E1), He2 as (_ & _ & _ & evs2 & E2).
    rewrite (new_events_app _ _ _ E1) in Ht1.
    rewrite (new_events_app _ _ _ E2) in Ht2.
    rewrite (new_events_app w1 w3 (evs1 ++ evs2)).
    + by rewrite titles_app, Ht1, Ht2.
    + by rewrite E2, E1, app_assoc.
Qed.

(** Sequencing: what comes after a step that shows [ts] and shows nothing
    itself. *)
Lemma bind_step {A} B ts (c : M A) (k : A → M unit) w :
  step B ts w (snd (c w)) →
  (∀ a w', ready B w' → step B [] w' (snd (k a w'))) →
  step B ts w (snd (bind c k w)).
Proof.
  intros Hc Hk. unfold bind. destruct (c w) as [[a|e] w1]; simpl in *.
  - rewrite <- (app_nil_r ts). eapply step_trans; [exact Hc|].
    apply Hk. apply Hc.
  - exact Hc.
Qed.

Lemma chatbot_columns_step B inp w :
  ready B w → step B [] w (snd ((col1 inp ;; col2 B inp ;; col3 B inp) w)).
Proof.
  intros H. apply bind_step; [by apply col1_step|].
  intros _ w1 H1. apply bind_step; [by apply col2_step|].
  intros _ w2 H2. by apply col3_step.
Qed.

Lemma footer_step B w : ready B w → step B [] w (snd (footer w)).
Proof. intros H. open_ready H; execute; leaf. Qed.

Lemma emit_step B e w :
  inert e → ready B w → step B (titles [e]) w (snd (emit e w)).
Proof.
  intros He (p & m & ms & s & Hss & Hmon & Hp & Hm & Hms & Hpair).
  destruct w as [ss fs tr n]; simpl in *; subst ss.
  eapply step_intro; eauto; simpl; by rewrite ?He.
Qed.

Lemma emit_bind_step B e (k : M unit) ts w :
  inert e →
  (∀ w', ready B w' → step B ts w' (snd (k w'))) →
  ready B w → step B (titles [e] ++ ts) w (snd ((emit e ;; k) w)).
Proof.
  intros He Hk H.
  change (snd ((emit e ;; k) w)) with (snd (k (snd (emit e w)))).
  pose proof (emit_step B e w He H) as Hs.
  eapply step_trans; [exact Hs|]. apply Hk, Hs.
Qed.

Lemma page_step B inp w :
  ready B w → step B (page_titles (choice inp)) w (snd (page B inp w)).
Proof.
  intros H. unfold page, page_titles.
  destruct (String.eqb (choice inp) "🏠 Home").
  { open_ready H; execute; leaf. }
  destruct (String.eqb (choice inp) "🤖 Chatbot").
  { unfold chatbot_page.
    apply (emit_bind_step B (EvTitle chatbot_title) _ []); [done| |done].
    intros w1 H1.
    apply (emit_bind_step B (EvMarkdown "---" false) _ []); [done| |done].
    intros w2 H2. by apply chatbot_columns_step. }
  destruct (String.eqb (choice inp) "📧 Contact").
  { open_ready H; execute; leaf. }
  by apply step_refl.
Qed.

Lemma page_footer_step B inp w :
  ready B w →
  step B (page_titles (choice inp)) w (snd ((page B inp ;; footer) w)).
Proof.
  intros H. apply bind_step; [by apply page_step|].
  intros _ w' H'. by apply footer_step.
Qed.

Lemma fresh_step B w w' :
  fresh w → ready B w' → step B (titles (trace w')) w w'.
Proof.
  intros [Hss Htr] H'. destruct w as [ss fs tr n]; simpl in *; subst.
  split; [done|]. split.
  - split; [apply prefix_nil|]. split; [done|]. split; [done|].
    by exists (trace w').
  - by rewrite (new_events_app _ w' (trace w')).
Qed.

Lemma script_split B inp w :
  script B inp w = ((preamble ;; page B inp ;; footer) w).
Proof.
  unfold script, preamble, sidebar, bind, emit.
  by destruct (init_session_state w) as [[[]|e] w1].
Qed.

Lemma preamble_step B w :
  fresh w ∨ ready B w → step B [] w (snd (preamble w)).
Proof.
  intros [Hf|H].
  - destruct w as [ss fs tr n], Hf as [Hss Htr]; simpl in *; subst.
    apply (fresh_step B); [done|].
    exists PNone, PNone, [], start.
    repeat split; try (by left); try done. by exists [].
  - open_ready H; cbv [preamble]; execute; leaf.
Qed.

Lemma preamble_returns w : fst (preamble w) = Ret tt.
Proof.
  unfold preamble, sidebar, init_session_state, bind, emit, get_session_state,
    put_session_state, ret.
  by destruct (dict_get "state" (session_state w)).
Qed.

Lemma run_step B inp w :
  fresh w ∨ ready B w → step B (page_titles (choice inp)) w (run B inp w).
Proof.
  intros H. unfold run. rewrite script_split.
  pose proof (preamble_step B w H) as Hs.
  pose proof (preamble_returns w) as Hr.
  unfold bind at 1. destruct (preamble w) as [[[]|e] w1]; simpl in *; [|done].
  change (page_titles (choice inp)) with ([] ++ page_titles (choice inp)).
  eapply step_trans; [exact Hs|]. apply page_footer_step, Hs.
Qed.

Lemma session_from_app B w inps1 inps2 :
  session_from B w (inps1 ++ inps2) =
  session_from B (session_from B w inps1) inps2.
Proof. apply fold_left_app. Qed.

Lemma session_from_ready B inps w :
  ready B w →
  ready B (session_from B w inps) ∧ extends w (session_from B w inps).
Proof.
  revert w. induction inps as [|inp inps IH]; intros w H; simpl.
  - split; [done | apply extends_refl].
  - destruct (run_step B inp w (or_intror H)) as (H1 & He1 & _).
    destruct (IH _ H1) as [H2 He2]. split; [done|].
    by eapply extends_trans.
Qed.

Lemma session_ready B fs inp inps : ready B (session B fs (inp :: inps)).
Proof.
  unfold session. simpl.
  apply session_from_ready.
  by apply (run_step B inp (initial_world fs)); left.
Qed.

Lemma session_extends B fs inps1 inps2 :
  extends (session B fs inps1) (session B fs (inps1 ++ inps2)).
Proof.
  unfold session. rewrite session_from_app.
  destruct inps1 as [|inp inps1].
  - simpl. destruct inps2 as [|inp inps2]; [apply extends_refl|].
    simpl.
    destruct (run_step B inp (initial_world fs)) as (H1 & He1 & _); [by left|].
    eapply extends_trans; [exact He1|]. by apply session_from_ready.
  - apply session_from_ready, session_ready.
Qed.

Lemma monitor_embedded pre s0 s1 :
  monitor s0 pre = Some s1 → embedded s1 = true →
  embedded s0 = true ∨ ∃ e', e' ∈ pre ∧ is_embedding_success e'.
Proof.
  revert s0. induction pre as [|e pre IH]; intros s0 Hmon Hem; simpl in Hmon.
  - left. congruence.
  - destruct (observe s0 e) as [s'|] eqn:Hobs; [|done].
    destruct (IH _ Hmon Hem) as [Hs'|(e' & Hin & He')].
    + destruct e; simpl in Hobs; repeat case_match; simplify_eq/=;
        try (by left).
      destruct res as [r|x]; simpl in Hs'.
      * right. eexists. split; [apply list_elem_of_here | done].
      * left. by rewrite orb_false_r in Hs'.
    + right. exists e'. split; [by apply list_elem_of_further | done].
Qed.

Lemma monitor_uploaded pre s0 s1 :
  monitor s0 pre = Some s1 → uploaded s1 = true →
  uploaded s0 = true ∨ ∃ e', e' ∈ pre ∧ is_upload e'.
Proof.
  revert s0. induction pre as [|e pre IH]; intros s0 Hmon Hup; simpl in Hmon.
  - left. congruence.
  - destruct (observe s0 e) as [s'|] eqn:Hobs; [|done].
    destruct (IH _ Hmon Hup) as [Hs'|(e' & Hin & He')].
    + destruct e; simpl in Hobs; repeat case_match; simplify_eq/=;
        try (by left).
      right. eexists. split; [apply list_elem_of_here | done].
    + right. exists e'. split; [by apply list_elem_of_further | done].
Qed.

Lemma monitor_in_order tr s : monitor start tr = Some s → in_order tr.
Proof.
  intros Hmon pre e post ->. rewrite monitor_app in Hmon.
  destruct (monitor start pre) as [s1|] eqn:Hpre; [|done]. simpl in Hmon.
  destruct (observe s1 e) as [s2|] eqn:Hobs; [|done].
  destruct e; try done; simpl in Hobs.
  - destruct (uploaded s1) eqn:Hup; [|done].
    by destruct (monitor_uploaded _ _ _ Hpre Hup) as [?|?].
  - destruct (embedded s1) eqn:Hem; [|done].
    by destruct (monitor_embedded _ _ _ Hpre Hem) as [?|?].
Qed.

(** ** The session state and its initialisation *)

Lemma init_session_state_cases w :
  match dict_get "state" (session_state w) with
  | None =>
      fst (init_session_state w) = Ret tt ∧
      session_state (snd (init_session_state w)) =
        dict_set "state" (PDict [ ("temp_pdf_path", PNone);
                                  ("chatbot_manager", PNone);
                                  ("messages", PList []) ])
                 (session_state w)
  | Some _ => init_session_state w = (Ret tt, w)
  end.
Proof.
  unfold init_session_state, bind, get_session_state, put_session_state, ret.
  by destruct (dict_get "state" (session_state w)).
Qed.

(** C4: at the start of a session the state is created with no document
    path, no chatbot manager and no messages; an execution that finds the
    key ['state'] leaves the session state alone, and every execution but
    the first of a session finds it. *)
Theorem session_state_created_once B fs :
  init_session_state (initial_world fs) =
    (Ret tt, {| session_state := mk_state PNone PNone []; files := fs;
                trace := []; next_id := 0 |}) ∧
  (∀ w, match dict_get "state" (session_state w) with
        | None =>
            fst (init_session_state w) = Ret tt ∧
            session_state (snd (init_session_state w)) =
              dict_set "state" (PDict [ ("temp_pdf_path", PNone);
                                        ("chatbot_manager", PNone);
                                        ("messages", PList []) ])
                       (session_state w)
        | Some _ => init_session_state w = (Ret tt, w)
        end) ∧
  (∀ inp inps,
     init_session_state (session B fs (inp :: inps)) =
       (Ret tt, session B fs (inp :: inps))).
Proof.
  split; [reflexivity|]. split; [apply init_session_state_cases|].
  intros inp inps.
  destruct (session_ready B fs inp inps) as (p & m & ms & s & Hss & _).
  pose proof (init_session_state_cases (session B fs (inp :: inps))) as H.
  by rewrite Hss in H.
Qed.

(** C5: after any number of executions the session state is one dict of
    exactly three fields: a path or None, a chatbot manager or None, and a
    list whose elements are dicts of exactly a role, "user" or "assistant",
    and a content; the list of an earlier moment of the session is a prefix
    of the list of any later moment. *)
Theorem state_shape_preserved B fs :
  (∀ inp inps,
     ∃ p m ms,
       session_state (session B fs (inp :: inps)) = mk_state p m ms ∧
       (p = PNone ∨ ∃ path, p = PStr path) ∧
       (m = PNone ∨ ∃ id, m = PObj ChatbotManager id) ∧
       Forall message_ok ms) ∧
  (∀ inps more,
     messages_of (session B fs inps)
       `prefix_of` messages_of (session B fs (inps ++ more))).
Proof.
  split.
  - intros inp inps.
    destruct (session_ready B fs inp inps)
      as (p & m & ms & s & Hss & _ & Hp & Hm & Hms & _).
    exists p, m, ms. repeat split; try done.
    + destruct Hp as [->|[-> _]]; eauto.
    + destruct Hm as [->|[? _]]; eauto.
  - intros inps more. apply session_extends.
Qed.

(** What [ready] says of the stored path and of the stored manager. *)
Lemma ready_temp_pdf_path B w :
  ready B w →
  temp_pdf_path_of w = Ret PNone ∨ temp_pdf_path_of w = Ret (PStr "doc.pdf").
Proof.
  intros (p & m & ms & s & Hss & _ & Hp & _).
  unfold temp_pdf_path_of, state_get, bind, get_session_state, lift.
  rewrite Hss. simpl. destruct Hp as [->|[-> _]]; auto.
Qed.

Lemma ready_chatbot_manager B w :
  ready B w →
  chatbot_manager_of w = Ret PNone ∨
  ∃ id, chatbot_manager_of w = Ret (PObj ChatbotManager id) ∧
        ∃ e, e ∈ trace w ∧ is_embedding_success e.
Proof.
  intros (p & m & ms & s & Hss & Hmon & _ & Hm & _).
  unfold chatbot_manager_of, state_get, bind, get_session_state, lift.
  rewrite Hss. simpl. destruct Hm as [->|[[id ->] Hem]]; [by left|].
  right. exists id. split; [done|].
  by destruct (monitor_embedded _ _ _ Hmon Hem) as [?|?].
Qed.

(** C3: without a chatbot manager the chat column shows a hint and neither
    offers the input nor calls [get_response]; without a document path
    ticking the box shows a warning and calls no manager; in the trace of
    a session every call of [get_response] comes after a call of
    [create_embeddings] that returned and every call of
    [create_embeddings] after an upload; and a chatbot manager is in the
    state only when a call of [create_embeddings] has returned. *)
Theorem chat_only_after_embeddings B :
  (∀ inp w p ms,
     session_state w = mk_state p PNone ms →
     col3 B inp w =
       (Ret tt,
        with_events w
          [ EvHeader "💬 Chat with Document";
            EvInfo "🤖 Please upload a PDF and create embeddings to start chatting." ])) ∧
  (∀ inp w m ms,
     session_state w = mk_state PNone m ms →
     create_embeddings inp = true →
     col2 B inp w =
       (Ret tt,
        with_events w
          [ EvHeader "🧠 Embeddings"; EvWidget "✅ Create Embeddings";
            EvWarning "⚠️ Please upload a PDF first." ])) ∧
  (∀ fs inps, in_order (trace (session B fs inps))) ∧
  (∀ fs inps id,
     chatbot_manager_of (session B fs inps) = Ret (PObj ChatbotManager id) →
     ∃ e, e ∈ trace (session B fs inps) ∧ is_embedding_success e).
Proof.
  repeat split.
  - intros inp [ss fs tr n] p ms Hss; simpl in Hss; subst ss.
    execute. unfold with_events. simpl. by rewrite <- app_assoc.
  - intros [ch uf ce ci] [ss fs tr n] m ms Hss Hce; simpl in *; subst.
    execute. unfold with_events. simpl. by rewrite <- !app_assoc.
  - intros fs [|inp inps].
    + by apply (monitor_in_order [] start).
    + destruct (session_ready B fs inp inps) as (p & m & ms & s & _ & Hmon & _).
      by eapply monitor_in_order.
  - intros fs [|inp inps] id Hm; [done|].
    destruct (ready_chatbot_manager B _ (session_ready B fs inp inps))
      as [H|(id' & _ & He)]; [congruence | done].
Qed.

(** C9: in every session the stored path is None or the string "doc.pdf";
    whatever file is uploaded, the upload stores "doc.pdf" and puts the
    data of the file under that name, in the place of what was there. *)
Theorem temp_pdf_path_is_constant B :
  (∀ fs inp inps,
     temp_pdf_path_of (session B fs (inp :: inps)) = Ret PNone ∨
     temp_pdf_path_of (session B fs (inp :: inps)) = Ret (PStr "doc.pdf")) ∧
  (∀ inp w p m ms file,
     session_state w = mk_state p m ms →
     uploaded_file inp = Some file →
     fst (col1 inp w) = Ret tt ∧
     session_state (snd (col1 inp w)) = mk_state (PStr "doc.pdf") m ms ∧
     files (snd (col1 inp w)) = <["doc.pdf" := file_data file]> (files w) ∧
     files (snd (col1 inp w)) !! "doc.pdf" = Some (file_data file)).
Proof.
  split.
  - intros fs inp inps. eapply ready_temp_pdf_path, session_ready.
  - intros [ch uf ce ci] [ss fs tr n] p m ms file Hss Huf; simpl in *; subst.
    execute. repeat split. apply lookup_insert_eq.
Qed.

(** C7: the menu has three entries, all different; whichever of them is
    chosen, one execution of the script shows exactly one page title, the
    one of the page that belongs to the entry, and the chain of tests runs
    the code of that page. *)
Theorem one_page_per_choice B inp w :
  fresh w ∨ ready B w →
  choice inp ∈ menu →
  List.length menu = 3 ∧ NoDup menu ∧
  NoDup [home_title; chatbot_title; contact_title] ∧
  ∃ t, titles (new_events w (run B inp w)) = [t] ∧
       ((choice inp = "🏠 Home" ∧ t = home_title ∧ page B inp = home_page) ∨
        (choice inp = "🤖 Chatbot" ∧ t = chatbot_title ∧
         page B inp = chatbot_page B inp) ∨
        (choice inp = "📧 Contact" ∧ t = contact_title ∧
         page B inp = contact_page)).
Proof.
  intros Hw Hin.
  split; [reflexivity|]. split; [compute_done|]. split; [compute_done|].
  destruct (run_step B inp w Hw) as (_ & _ & Ht). rewrite Ht.
  unfold page, page_titles.
  apply list_elem_of_In in Hin. simpl in Hin.
  destruct Hin as [<-|[<-|[<-|[]]]]; simpl; eauto 10.
Qed.

(** ** Execution with values that are not known *)

Ltac mstep_sym :=
  repeat (progress (
    cbv beta iota zeta delta
      [bind ret raise lift emit try_except find_handler
       get_session_state put_session_state write_file new_manager
       call_create_embeddings call_get_response
       initialize_embeddings_manager initialize_chatbot_manager
       state_get state_set messages_append subscript store_subscript iterate
       dict_get dict_set mk_state CONFIG
       init_session_state sidebar home_page contact_page footer
       chatbot_page col1 col2 col2_try col2_handlers col3 send_message
       display_pdf with_events preamble
       session_state files trace next_id
       choice uploaded_file create_embeddings chat_input
       String.eqb Ascii.eqb Bool.eqb negb fst snd];
    cbn [truthy])).

Ltac oracle_sym :=
  first
    [ oracle
    | match goal with
      | H : truthy ?v = _ |- context [truthy ?v] => rewrite H
      | |- context [truthy ?v] => is_var v; destruct (truthy v) eqn:?
      end ].

Ltac execute_sym := mstep_sym; repeat (oracle_sym; mstep_sym).

Ltac member :=
  solve [ repeat first [ apply list_elem_of_here
                       | apply list_elem_of_further
                       | apply elem_of_app; right ] ].

Lemma omap_messages {A} (f : event → option A) (ms : list pyval) :
  (∀ r c, f (EvChatMessage r c) = None) → omap f (message_event <$> ms) = [].
Proof.
  intros Hf. induction ms as [|msg ms IH]; simpl; [done|].
  destruct (message_event_chat msg) as (r & c & ->). by rewrite Hf.
Qed.

(** Brings the events between the two worlds of a goal into view. *)
Ltac events :=
  rewrite <- ?app_assoc;
  repeat match goal with
  | |- context [new_events ?w ?w'] =>
      erewrite (new_events_app w w') by reflexivity
  end.

Ltac calls :=
  unfold create_embeddings_calls, get_response_calls,
    chatbot_manager_constructions, raised;
  rewrite ?omap_app, ?omap_messages by done; cbn.

(** C8: when the state holds a chatbot manager, creating embeddings again
    constructs no new one and leaves the session state as it is, whatever
    was uploaded meanwhile; and in a session the instance once stored stays
    through all later executions. *)
Theorem chatbot_manager_set_once B :
  (∀ inp w p m ms,
     session_state w = mk_state p m ms →
     truthy m = true →
     session_state (snd (col2 B inp w)) = session_state w ∧
     chatbot_manager_constructions (new_events w (snd (col2 B inp w))) = []) ∧
  (∀ fs inps more id,
     chatbot_manager_of (session B fs inps) = Ret (PObj ChatbotManager id) →
     chatbot_manager_of (session B fs (inps ++ more)) =
       Ret (PObj ChatbotManager id)).
Proof.
  split.
  - intros inp w p m ms Hss Hm.
    destruct w as [ss fs tr n], inp as [ch uf [|] ci]; simpl in *; subst ss.
    all: execute_sym; events; calls; done.
  - intros fs inps more id.
    destruct (session_extends B fs inps more) as (_ & H & _). apply H.
Qed.

(** C1: when the box is ticked and a path is stored, [create_embeddings] is
    called at most once, with exactly the stored value, and what it returns
    is shown; when a message is sent, [get_response] is called exactly
    once, with exactly the text typed, and what it returns is shown as the
    assistant's message and stored as the last turn. *)
Theorem call_through B inp w p m ms :
  session_state w = mk_state p m ms →
  (create_embeddings inp = true → truthy p = true →
   let evs := new_events w (snd (col2 B inp w)) in
   match create_embeddings_calls evs with
   | [] => ∃ kwargs e, EvNewManager EmbeddingsManager kwargs (Raise e) ∈ evs
   | [(self, pdf_path, res)] =>
       pdf_path = p ∧ ∀ result, res = Ret result → EvSuccess result ∈ evs
   | _ => False
   end) ∧
  (∀ id q,
     m = PObj ChatbotManager id → Forall message_ok ms →
     chat_input inp = Some q → q ≠ "" →
     let evs := new_events w (snd (col3 B inp w)) in
     ∃ res,
       get_response_calls evs = [(m, PStr q, res)] ∧
       ∀ answer, res = Ret answer →
         EvChatMessage (PStr "assistant") answer ∈ evs ∧
         last (messages_of (snd (col3 B inp w))) =
           Some (turn "assistant" answer)).
Proof.
  intros Hss. split.
  - intros Hce Hp.
    destruct w as [ss fs tr n], inp as [ch uf ce ci]; simpl in *; subst.
    execute_sym; events; calls.
    all: try (split; [reflexivity|]; intros result [= <-]).
    all: try (do 2 eexists); member.
  - intros id q -> Hms Hci Hq.
    destruct w as [ss fs tr n], inp as [ch uf ce ci], q as [|c q];
      simpl in *; subst; [done|].
    execute_sym; rewrite ?for_each_render by assumption; execute_sym.
    all: events; calls; eexists; (split; [reflexivity|]).
    all: intros answer Hres; try discriminate.
    all: injection Hres as <-; (split; [member|]).
    all: unfold messages_of; simpl; by rewrite last_app.
Qed.



(** ** What each part of the page writes *)

Lemma render_message_frame msg ss fs tr n :
  ∃ res evs,
    render_message msg (Build_World ss fs tr n) =
    (res, Build_World ss fs (tr ++ evs) n).
Proof.
  unfold render_message, bind, lift, emit; simpl.
  destruct (subscript msg "role") as [role|e].
  - destruct (subscript msg "content") as [content|e]; simpl.
    + by exists (Ret tt), [EvChatMessage role content].
    + exists (Raise e), []. by rewrite app_nil_r.
  - exists (Raise e), []. by rewrite app_nil_r.
Qed.

Lemma for_each_frame items ss fs tr n :
  ∃ res evs,
    for_each items render_message (Build_World ss fs tr n) =
    (res, Build_World ss fs (tr ++ evs) n).
Proof.
  revert tr. induction items as [|msg items IH]; intros tr.
  - exists (Ret tt), []. simpl. by rewrite app_nil_r.
  - destruct (render_message_frame msg ss fs tr n) as (res & evs & Hr).
    cbn [for_each]. unfold bind at 1. rewrite Hr.
    destruct res as [[]|e].
    + destruct (IH (tr ++ evs)) as (res' & evs' & ->).
      exists res', (evs ++ evs'). by rewrite app_assoc.
    + by exists (Raise e), evs.
Qed.

Ltac run_loop :=
  match goal with
  | |- context [for_each ?l render_message (Build_World ?ss ?fs ?tr ?n)] =>
      let res := fresh "res" in
      let evs := fresh "evs" in
      destruct (for_each_frame l ss fs tr n) as (res & evs & ->);
      destruct res as [[]|?]
  end.

Ltac oracle_any :=
  first
    [ oracle_sym
    | match goal with
      | |- context [Qeq_bool ?q ?z] => destruct (Qeq_bool q z) eqn:?
      end ].

Ltac execute_any := mstep_sym; repeat (oracle_any; mstep_sym).

Lemma page_other B inp w :
  choice inp ≠ "🤖 Chatbot" →
  fst (page B inp w) = Ret tt ∧
  session_state (snd (page B inp w)) = session_state w.
Proof.
  intros Hc. unfold page.
  destruct (String.eqb (choice inp) "🏠 Home"); [done|].
  destruct (String.eqb (choice inp) "🤖 Chatbot") eqn:E.
  { by apply String.eqb_eq in E. }
  by destruct (String.eqb (choice inp) "📧 Contact").
Qed.

(** C6: the upload column writes the path and nothing else, and only when a
    file is there; the embeddings column writes the chatbot manager and
    nothing else, and only when the box is ticked; the chat column only
    appends to the messages, and only when a message was typed; the home
    page, the contact page, the side bar and the footer write nothing, and
    an execution that shows the home or the contact page leaves the session
    state as it found it. *)
Theorem disjoint_writes B inp w p m ms :
  session_state w = mk_state p m ms →
  session_state (snd (col1 inp w)) =
    mk_state (match uploaded_file inp with
              | Some _ => PStr "doc.pdf"
              | None => p
              end) m ms ∧
  (∃ m', session_state (snd (col2 B inp w)) = mk_state p m' ms ∧
         (create_embeddings inp = false → m' = m)) ∧
  (∃ more, session_state (snd (col3 B inp w)) = mk_state p m (ms ++ more) ∧
           (chat_input inp = None → more = [])) ∧
  session_state (snd (home_page w)) = session_state w ∧
  session_state (snd (contact_page w)) = session_state w ∧
  session_state (snd (sidebar w)) = session_state w ∧
  session_state (snd (footer w)) = session_state w ∧
  (choice inp ≠ "🤖 Chatbot" →
   session_state (run B inp w) = session_state w).
Proof.
  intros Hss. destruct w as [ss fs tr n]; simpl in Hss; subst ss.
  split; [|split; [|split]].
  - destruct inp as [ch [f|] ce ci]; by execute_any.
  - destruct inp as [ch uf [|] ci]; execute_any;
      eexists; (split; [reflexivity|]); intros; done.
  - destruct inp as [ch uf ce [[|c q]|]];
      destruct m as [|[|]|q'|[|c' s']|[|] id|[|x l]|[|x l]];
      execute_any; try run_loop; execute_any.
    all: try (exists []; rewrite app_nil_r; split; [reflexivity|done]).
    all: try (eexists; split; [reflexivity|]; intros; discriminate).
    all: try (eexists; split; [by rewrite <- app_assoc|]; intros; discriminate).
  - repeat split.
    intros Hc. unfold run. rewrite script_split. unfold bind.
    mstep_sym.
    match goal with
    | |- context [page B inp ?W] =>
        destruct (page_other B inp W Hc) as [Hr Hs];
        destruct (page B inp W) as [[[]|e] w1]
    end; simpl in *; [|done].
    exact Hs.
Qed.

(** ** The theorems at concrete sessions *)

Lemma call_through_witness :
  session_state (sample_world (PStr "doc.pdf") (PObj ChatbotManager 3) [] []) =
    mk_state (PStr "doc.pdf") (PObj ChatbotManager 3) [] ∧
  chat_input (ask "hi") = Some "hi" ∧ "hi" ≠ "" ∧
  ∃ res,
    get_response_calls
      (new_events
         (sample_world (PStr "doc.pdf") (PObj ChatbotManager 3) [] [])
         (snd (col3 backend_ok (ask "hi")
                 (sample_world (PStr "doc.pdf") (PObj ChatbotManager 3) [] []))))
    = [(PObj ChatbotManager 3, PStr "hi", res)].
Proof.
  split; [reflexivity|]. split; [reflexivity|]. split; [discriminate|].
  destruct (call_through backend_ok (ask "hi")
              (sample_world (PStr "doc.pdf") (PObj ChatbotManager 3) [] [])
              (PStr "doc.pdf") (PObj ChatbotManager 3) [] eq_refl) as [_ H].
  destruct (H 3 "hi" eq_refl ltac:(constructor) eq_refl ltac:(discriminate))
    as (res & Hres & _).
  exists res. exact Hres.
Defined.


Lemma chat_only_after_embeddings_witness :
  chatbot_manager_of (session backend_ok ∅ [upload_and_embed sample_pdf]) =
    Ret (PObj ChatbotManager 1) ∧
  ∃ e, e ∈ trace (session backend_ok ∅ [upload_and_embed sample_pdf]) ∧
       is_embedding_success e.
Proof.
  split; [reflexivity|].
  destruct (chat_only_after_embeddings backend_ok) as (_ & _ & _ & H).
  exact (H ∅ [upload_and_embed sample_pdf] 1 eq_refl).
Defined.

Lemma disjoint_writes_witness :
  session_state (sample_world (PStr "doc.pdf") (PObj ChatbotManager 3) [] []) =
    mk_state (PStr "doc.pdf") (PObj ChatbotManager 3) [] ∧
  choice (visit "🏠 Home") ≠ "🤖 Chatbot" ∧
  session_state
    (run backend_ok (visit "🏠 Home")
       (sample_world (PStr "doc.pdf") (PObj ChatbotManager 3) [] [])) =
  session_state (sample_world (PStr "doc.pdf") (PObj ChatbotManager 3) [] []).
Proof.
  split; [reflexivity|]. split; [discriminate|].
  destruct (disjoint_writes backend_ok (visit "🏠 Home")
              (sample_world (PStr "doc.pdf") (PObj ChatbotManager 3) [] [])
              (PStr "doc.pdf") (PObj ChatbotManager 3) [] eq_refl)
    as (_ & _ & _ & _ & _ & _ & _ & H).
  exact (H ltac:(discriminate)).
Defined.

Lemma one_page_per_choice_witness :
  (fresh (initial_world ∅) ∨ ready backend_ok (initial_world ∅)) ∧
  choice (visit "📧 Contact") ∈ menu ∧
  ∃ t, titles (new_events (initial_world ∅)
                 (run backend_ok (visit "📧 Contact") (initial_world ∅))) = [t].
Proof.
  assert (H1 : fresh (initial_world ∅) ∨ ready backend_ok (initial_world ∅))
    by (left; split; reflexivity).
  assert (H2 : choice (visit "📧 Contact") ∈ menu)
    by (do 2 apply list_elem_of_further; apply list_elem_of_here).
  split; [exact H1|]. split; [exact H2|].
  destruct (one_page_per_choice backend_ok (visit "📧 Contact")
              (initial_world ∅) H1 H2) as (_ & _ & _ & t & Ht & _).
  exists t. exact Ht.
Defined.

Lemma chatbot_manager_set_once_witness :
  truthy (PObj ChatbotManager 3) = true ∧
  session_state
    (snd (col2 backend_ok (upload_and_embed other_pdf)
            (sample_world (PStr "doc.pdf") (PObj ChatbotManager 3) [] []))) =
  session_state (sample_world (PStr "doc.pdf") (PObj ChatbotManager 3) [] []) ∧
  chatbot_manager_of
    (session backend_ok ∅
       ([upload_and_embed sample_pdf] ++ [upload_and_embed other_pdf])) =
  Ret (PObj ChatbotManager 1).
Proof.
  split; [reflexivity|].
  destruct (chatbot_manager_set_once backend_ok) as [H1 H2]. split.
  - exact (proj1 (H1 (upload_and_embed other_pdf)
                    (sample_world (PStr "doc.pdf") (PObj ChatbotManager 3) [] [])
                    (PStr "doc.pdf") (PObj ChatbotManager 3) [] eq_refl eq_refl)).
  - exact (H2 ∅ [upload_and_embed sample_pdf] [upload_and_embed other_pdf] 1
             eq_refl).
Defined.

Lemma temp_pdf_path_is_constant_witness :
  uploaded_file (upload_and_embed other_pdf) = Some other_pdf ∧
  session_state
    (snd (col1 (upload_and_embed other_pdf)
            (sample_world (PStr "doc.pdf") PNone [] []))) =
    mk_state (PStr "doc.pdf") PNone [] ∧
  files (snd (col1 (upload_and_embed other_pdf)
                (sample_world (PStr "doc.pdf") PNone [] [])))
    !! "doc.pdf" = Some (file_data other_pdf).
Proof.
  split; [reflexivity|].
  destruct (temp_pdf_path_is_constant backend_ok) as [_ H].
  destruct (H (upload_and_embed other_pdf)
              (sample_world (PStr "doc.pdf") PNone [] [])
              (PStr "doc.pdf") PNone [] other_pdf eq_refl eq_refl)
    as (_ & H1 & _ & H2).
  split; [exact H1 | exact H2].
Defined.



(** ** Reading and writing the state, whatever it holds *)









(** ** The columns, path by path *)

Lemma display_pdf_eq file w :
  display_pdf file w = (Ret tt, with_events w [EvMarkdown (pdf_display file) true]).
Proof. reflexivity. Qed.

Lemma col1_cases inp w p m ms :
  session_state w = mk_state p m ms →
  col1 inp w =
    (Ret tt,
     {| session_state := mk_state (upload_path inp p) m ms;
        files := upload_files inp (files w);
        trace := trace w ++ col1_events inp;
        next_id := next_id w |}).
Proof.
  intros Hss. destruct w as [ss fs tr n], inp as [ch [f|] ce ci];
    simpl in *; subst ss; execute_sym;
    unfold col1_events, upload_path, upload_files; simpl;
    by rewrite <- ?app_assoc.
Qed.

Lemma answered_messages B (ms : list pyval) :
  Forall (answered B) (message_event <$> ms).
Proof.
  induction ms as [|msg ms IH]; simpl; constructor; [|done].
  by destruct (message_event_chat msg) as (r & c & ->).
Qed.

(** Shows that the events of a path record what the managers gave. *)
Ltac faithful :=
  rewrite ?Forall_app;
  repeat first
    [ apply Forall_nil_2
    | apply answered_messages
    | split
    | apply Forall_cons_2; [first [exact I | eexists; eassumption]|] ].

Ltac settled :=
  unfold settle, caught_by_col2, embedding_error_message;
  repeat match goal with H : isinstance _ _ = _ |- _ => rewrite H end;
  simpl; rewrite <- ?app_assoc; reflexivity.

Lemma col2_cases B inp w p m ms :
  session_state w = mk_state p m ms →
  ∃ res evs m' n',
    col2 B inp w =
      (res,
       {| session_state := mk_state p m' ms; files := files w;
          trace := trace w ++ col2_frame ++ evs; next_id := n' |}) ∧
    col2_case inp p m (next_id w) res evs m' n' ∧
    Forall (answered B) evs.
Proof.
  intros Hss. destruct w as [ss fs tr n], inp as [ch uf ce ci];
    simpl in *; subst ss.
  destruct ce; execute_sym.
  all: do 4 eexists; (split; [rewrite <- ?app_assoc; reflexivity|]).
  all: split; [|faithful].
  all: first
    [ by apply col2_idle
    | by apply col2_warned
    | by apply col2_embedded
    | by apply col2_chatbot_ready
    | eapply col2_no_embeddings_manager; [done | done | settled]
    | eapply col2_embeddings_failed; [done | done | settled]
    | eapply col2_no_chatbot_manager; [done | done | done | settled] ].
Qed.

Lemma col3_cases B inp w p m ms :
  session_state w = mk_state p m ms →
  (m = PNone ∨ ∃ id, m = PObj ChatbotManager id) →
  Forall message_ok ms →
  ∃ res evs ms',
    col3 B inp w =
      (res,
       {| session_state := mk_state p m ms'; files := files w;
          trace := trace w ++ [EvHeader "💬 Chat with Document"] ++ evs;
          next_id := next_id w |}) ∧
    col3_case inp m ms res evs ms' ∧
    Forall (answered B) evs.
Proof.
  intros Hss Hm Hms. destruct w as [ss fs tr n], inp as [ch uf ce ci];
    simpl in *; subst ss.
  destruct Hm as [->|[id ->]], ci as [[|c q]|];
    execute_sym; rewrite ?for_each_render by assumption; execute_sym.
  all: do 3 eexists; (split; [rewrite <- ?app_assoc; reflexivity|]).
  all: split; [|faithful].
  all: first
    [ by apply col3_hint
    | by apply col3_idle
    | by eapply col3_answered
    | by eapply col3_apologised
    | by eapply col3_escaped ].
Qed.

(** ** The chatbot page, path by path *)

Lemma col2_case_manager inp p m n res evs m' n' :
  col2_case inp p m n res evs m' n' →
  (m = PNone ∨ ∃ id, m = PObj ChatbotManager id) →
  m' = PNone ∨ ∃ id, m' = PObj ChatbotManager id.
Proof. intros H Hm. destruct H; eauto. Qed.

Lemma chatbot_page_cases B inp w p m ms :
  session_state w = mk_state p m ms →
  (m = PNone ∨ ∃ id, m = PObj ChatbotManager id) →
  Forall message_ok ms →
  ∃ res evs m' ms' n',
    chatbot_page B inp w =
      (res,
       {| session_state := mk_state (upload_path inp p) m' ms';
          files := upload_files inp (files w);
          trace := trace w ++ evs; next_id := n' |}) ∧
    chatbot_page_case inp p m ms (next_id w) res evs m' ms' n' ∧
    Forall (answered B) evs.
Proof.
  intros Hss Hm Hms. destruct w as [ss fs tr n]; simpl in *; subst ss.
  unfold chatbot_page, bind, emit. simpl.
  erewrite (col1_cases inp) by reflexivity. simpl.
  match goal with
  | |- context [col2 B inp ?W] =>
      destruct (col2_cases B inp W (upload_path inp p) m ms eq_refl)
        as (res2 & evs2 & m' & n' & Heq2 & Hc2 & Ha2); rewrite Heq2
  end. simpl in *.
  destruct res2 as [[]|e].
  - match goal with
    | |- context [col3 B inp ?W] =>
        destruct (col3_cases B inp W (upload_path inp p) m' ms eq_refl
                    (col2_case_manager _ _ _ _ _ _ _ _ Hc2 Hm) Hms)
          as (res3 & evs3 & ms' & Heq3 & Hc3 & Ha3); rewrite Heq3
    end. simpl in *.
    exists res3, (page_head ++ col1_events inp ++ col2_frame ++ evs2 ++
                  EvHeader "💬 Chat with Document" :: evs3), m', ms', n'.
    split; [do 2 f_equal; unfold page_head; by rewrite <- !app_assoc|].
    split; [by econstructor|].
    unfold col1_events. destruct (uploaded_file inp); faithful; done.
  - exists (Raise e), (page_head ++ col1_events inp ++ col2_frame ++ evs2),
      m', ms, n'.
    split; [do 2 f_equal; unfold page_head; by rewrite <- !app_assoc|].
    split; [by econstructor|].
    unfold col1_events. destruct (uploaded_file inp); faithful; done.
Qed.

(** ** What the paths have in common *)

Lemma bubbles_messages (ms : list pyval) :
  bubbles (message_event <$> ms) = message_event <$> ms.
Proof.
  unfold bubbles. induction ms as [|msg ms IH]; simpl; [done|].
  destruct (message_event_chat msg) as (r & c & ->). simpl. f_equal. exact IH.
Qed.

Lemma configured_messages (ms : list pyval) :
  Forall configured (message_event <$> ms).
Proof.
  induction ms as [|msg ms IH]; simpl; constructor; [|done].
  by destruct (message_event_chat msg) as (r & c & ->).
Qed.

Lemma caught_false e :
  caught_by_col2 e = false → isinstance e Exception = false.
Proof.
  unfold caught_by_col2. intros H.
  apply orb_false_elim in H as [_ H]. exact H.
Qed.

(** Takes a path of column 2 apart, down to its list of events. *)
Ltac open_col2 H :=
  destruct H;
  repeat match goal with
  | Hs : settle ?e _ = _ |- _ =>
      unfold settle in Hs;
      let C := fresh "Hcaught" in
      destruct (caught_by_col2 e) eqn:C;
      injection Hs as <- <-
  end.

Lemma col2_case_facts inp p m n res evs m' n' :
  col2_case inp p m n res evs m' n' →
  ends_well res evs ∧
  writes evs = [] ∧ bubbles evs = [] ∧ page_configs evs = [] ∧
  titles evs = [] ∧ get_response_calls evs = [] ∧
  Forall configured evs ∧
  chatbot_managers_built evs =
    (if truthy m then [] else if truthy m' then [m'] else []) ∧
  (truthy m = true → m' = m) ∧
  (create_embeddings inp = false ∨ truthy p = false →
   evs = [] ∨ evs = [EvWarning "⚠️ Please upload a PDF first."]) ∧
  (create_embeddings inp = true → truthy p = true →
   ∃ r, embeddings_constructions evs = [r] ∧
        List.length (create_embeddings_calls evs) =
          (if is_ret r then 1 else 0)%nat).
Proof.
  intros H. open_col2 H.
  all: repeat match goal with
       | H : truthy ?v = _ |- context [truthy ?v] => rewrite H
       end.
  all: repeat split; try exact I; try (by apply caught_false).
  all: try (cbn; apply list_elem_of_here).
  all: try reflexivity.
  all: try (repeat constructor; fail).
  all: try (intros; congruence).
  all: try (by destruct (truthy m)).
  all: try (intros [?|?]; first [congruence | by left | by right]).
  all: try (intros; eexists; split; reflexivity).
Qed.

Lemma message_event_turn role content :
  message_event (turn role content) = EvChatMessage (PStr role) content.
Proof. reflexivity. Qed.

(** Computes what a trace tells of a list of events that holds the stored
    turns. *)
Ltac project :=
  unfold chat_events, writes, page_configs, titles, chatbot_managers_built,
    embeddings_constructions, create_embeddings_calls, get_response_calls,
    raised;
  rewrite ?omap_app, ?omap_messages by done; cbn.

Lemma col3_case_facts inp m ms res evs ms' :
  col3_case inp m ms res evs ms' →
  Forall message_ok ms →
  (truthy m = false → ms = []) →
  ends_well res evs ∧
  writes evs = [] ∧ page_configs evs = [] ∧ titles evs = [] ∧
  chatbot_managers_built evs = [] ∧ embeddings_constructions evs = [] ∧
  create_embeddings_calls evs = [] ∧
  Forall configured evs ∧
  bubbles evs = message_event <$> ms' ∧
  Forall message_ok ms' ∧ ms `prefix_of` ms' ∧
  (truthy m = false → ms' = []) ∧
  ms' = ms ++ (get_response_calls evs ≫= turns_of_call) ∧
  (typed inp = None → ms' = ms ∧ get_response_calls evs = []) ∧
  (∀ q, typed inp = Some q → truthy m = true →
     ∃ r, get_response_calls evs = [(m, PStr q, r)] ∧
          ms' = ms ++ turn "user" (PStr q) ::
                match r with
                | Ret answer => [turn "assistant" answer]
                | Raise e => if isinstance e Exception
                             then [turn "assistant" (error_answer e)]
                             else []
                end).
Proof.
  intros H Hms Hnone. destruct H.
  all: split; [first [ exact I | split; [done | project; apply list_elem_of_here] ]|].
  all: do 6 (split; [by project|]).
  all: split;
    [ unfold chat_events; rewrite ?Forall_app; repeat split;
      try apply configured_messages; repeat constructor |].
  all: split;
    [ unfold bubbles, chat_events; rewrite ?omap_app;
      fold (bubbles (message_event <$> ms));
      rewrite ?bubbles_messages, ?fmap_app; cbn;
      first [ reflexivity | by rewrite app_nil_r | by rewrite Hnone ] |].
  all: split;
    [ rewrite ?Forall_app; repeat split; try done;
      repeat constructor; try (eexists _, _; split; eauto) |].
  all: split; [first [ reflexivity | by apply prefix_app_r ] |].
  all: split; [first [ exact Hnone | intros; congruence ] |].
  all: split;
    [ project;
      repeat match goal with
      | H : isinstance _ Exception = _ |- _ => rewrite H
      end; by rewrite ?app_nil_r |].
  all: split;
    [ first [ by intros; split; [|project] | intros; congruence ] |].
  all: intros q0 Hq0 Hm0; try congruence.
  all: assert (q0 = q) as -> by congruence.
  - exists (Ret answer). split; [by project | reflexivity].
  - exists (Raise e). split; [by project|].
    match goal with H : isinstance e Exception = _ |- _ => by rewrite H end.
  - exists (Raise e). split; [by project|].
    match goal with H : isinstance e Exception = _ |- _ => by rewrite H end.
Qed.

(** ** One execution, path by path *)

Lemma preamble_cases w p m ms :
  opens_with w p m ms →
  preamble w =
    (Ret tt,
     {| session_state := mk_state p m ms; files := files w;
        trace := trace w ++ preamble_events; next_id := next_id w |}).
Proof.
  intros [Hss|(Hss & -> & -> & ->)]; destruct w as [ss fs tr n];
    simpl in *; subst ss; mstep_sym; by rewrite <- ?app_assoc.
Qed.

Lemma footer_eq w : footer w = (Ret tt, with_events w footer_events).
Proof.
  destruct w as [ss fs tr n]. unfold with_events. mstep_sym.
  by rewrite <- ?app_assoc.
Qed.

Lemma page_cases B inp w p m ms :
  session_state w = mk_state p m ms →
  (m = PNone ∨ ∃ id, m = PObj ChatbotManager id) →
  Forall message_ok ms →
  ∃ res evs p' m' ms' fs' n',
    page B inp w =
      (res,
       {| session_state := mk_state p' m' ms'; files := fs';
          trace := trace w ++ evs; next_id := n' |}) ∧
    page_case inp p m ms (next_id w) (files w) res evs p' m' ms' fs' n' ∧
    Forall (answered B) evs.
Proof.
  intros Hss Hm Hms. unfold page.
  destruct (String.eqb (choice inp) "🏠 Home") eqn:E1.
  { apply String.eqb_eq in E1.
    destruct w as [ss fs tr n]; simpl in *; subst ss. mstep_sym.
    do 7 eexists. split; [rewrite <- ?app_assoc; reflexivity|].
    split; [|by repeat constructor].
    apply page_static; [by rewrite E1 | repeat constructor | by rewrite E1]. }
  destruct (String.eqb (choice inp) "🤖 Chatbot") eqn:E2.
  { apply String.eqb_eq in E2.
    destruct (chatbot_page_cases B inp w p m ms Hss Hm Hms)
      as (res & evs & m' & ms' & n' & -> & Hc & Ha).
    do 7 eexists. split; [reflexivity|]. split; [by apply page_chatbot|done]. }
  apply String.eqb_neq in E2.
  destruct (String.eqb (choice inp) "📧 Contact") eqn:E3.
  { apply String.eqb_eq in E3.
    destruct w as [ss fs tr n]; simpl in *; subst ss. mstep_sym.
    do 7 eexists. split; [rewrite <- ?app_assoc; reflexivity|].
    split; [|by repeat constructor].
    apply page_static; [done | repeat constructor | by rewrite E3]. }
  destruct w as [ss fs tr n]; simpl in *; subst ss.
  exists (Ret tt), [], p, m, ms, fs, n.
  split; [by rewrite app_nil_r|]. split; [|constructor].
  apply page_static; [done | constructor |].
  unfold page_titles. by rewrite E1, E3, (proj2 (String.eqb_neq _ _) E2).
Qed.

Lemma script_cases B inp w p m ms :
  opens_with w p m ms →
  (m = PNone ∨ ∃ id, m = PObj ChatbotManager id) →
  Forall message_ok ms →
  ∃ res evs p' m' ms' fs' n',
    script B inp w =
      (res,
       {| session_state := mk_state p' m' ms'; files := fs';
          trace := trace w ++ preamble_events ++ evs ++
                   (if is_ret res then footer_events else []);
          next_id := n' |}) ∧
    page_case inp p m ms (next_id w) (files w) res evs p' m' ms' fs' n' ∧
    Forall (answered B) evs.
Proof.
  intros Hw Hm Hms. rewrite script_split. unfold bind at 1.
  rewrite (preamble_cases w p m ms Hw).
  match goal with
  | |- context [bind (page B inp) _ ?W] =>
      destruct (page_cases B inp W p m ms eq_refl Hm Hms)
        as (res & evs & p' & m' & ms' & fs' & n' & Hpage & Hc & Ha)
  end.
  unfold bind. rewrite Hpage. simpl in *.
  exists res, evs, p', m', ms', fs', n'. split; [|by split].
  destruct res as [[]|e]; simpl.
  - rewrite footer_eq. unfold with_events. simpl. by rewrite <- !app_assoc.
  - by rewrite app_nil_r, <- app_assoc.
Qed.

(** ** What the paths of a page have in common *)

Lemma static_facts evs :
  Forall static evs →
  writes evs = [] ∧ bubbles evs = [] ∧ page_configs evs = [] ∧
  chatbot_managers_built evs = [] ∧ embeddings_constructions evs = [] ∧
  create_embeddings_calls evs = [] ∧ get_response_calls evs = [] ∧
  raised evs = [] ∧ Forall configured evs.
Proof.
  induction 1 as [|e evs He _ IH]; [by repeat split|].
  destruct IH as (? & ? & ? & ? & ? & ? & ? & ? & ?).
  destruct e; try done; by repeat split; try constructor.
Qed.

Lemma col1_facts inp :
  writes (col1_events inp) =
    match uploaded_file inp with
    | Some file => [("doc.pdf", file_data file)]
    | None => []
    end ∧
  bubbles (col1_events inp) = [] ∧ page_configs (col1_events inp) = [] ∧
  chatbot_managers_built (col1_events inp) = [] ∧
  embeddings_constructions (col1_events inp) = [] ∧
  create_embeddings_calls (col1_events inp) = [] ∧
  get_response_calls (col1_events inp) = [] ∧
  raised (col1_events inp) = [] ∧ Forall configured (col1_events inp).
Proof.
  unfold col1_events. destruct (uploaded_file inp); simpl;
    repeat split; repeat constructor.
Qed.

Lemma manager_after_col2 inp p m n res evs m' n' (ms : list pyval) :
  col2_case inp p m n res evs m' n' →
  (truthy m = false → ms = []) → truthy m' = false → ms = [].
Proof.
  intros H Hnone Hm'. apply Hnone.
  destruct (col2_case_facts _ _ _ _ _ _ _ _ H)
    as (_ & _ & _ & _ & _ & _ & _ & _ & Hkeep & _).
  destruct (truthy m) eqn:E; [|done]. rewrite (Hkeep eq_refl) in Hm'. congruence.
Qed.

(** Splits what a trace tells of the events of the chatbot page into what
    it tells of each column. *)
Ltac columns :=
  unfold writes, bubbles, page_configs, chatbot_managers_built,
    embeddings_constructions, create_embeddings_calls, get_response_calls,
    raised in *;
  change (EvHeader "💬 Chat with Document" :: ?l)
    with ([EvHeader "💬 Chat with Document"] ++ l);
  rewrite ?omap_app;
  repeat match goal with
  | |- context [omap ?f page_head] =>
      let v := eval cbv in (omap f page_head) in
      change (omap f page_head) with v
  | |- context [omap ?f col2_frame] =>
      let v := eval cbv in (omap f col2_frame) in
      change (omap f col2_frame) with v
  | |- context [omap ?f [EvHeader ?h]] =>
      let v := eval cbv in (omap f [EvHeader h]) in
      change (omap f [EvHeader h]) with v
  end;
  rewrite ?app_nil_l.

Lemma chatbot_page_case_facts inp p m ms n res evs m' ms' n' :
  chatbot_page_case inp p m ms n res evs m' ms' n' →
  (m = PNone ∨ ∃ id, m = PObj ChatbotManager id) →
  Forall message_ok ms →
  (truthy m = false → ms = []) →
  ends_well res evs ∧
  writes evs =
    match uploaded_file inp with
    | Some file => [("doc.pdf", file_data file)]
    | None => []
    end ∧
  page_configs evs = [] ∧
  Forall configured evs ∧
  chatbot_managers_built evs =
    (if truthy m then [] else if truthy m' then [m'] else []) ∧
  (truthy m = true → m' = m) ∧
  (m' = PNone ∨ ∃ id, m' = PObj ChatbotManager id) ∧
  Forall message_ok ms' ∧
  (truthy m' = false → ms' = []) ∧
  ms' = ms ++ (get_response_calls evs ≫= turns_of_call) ∧
  (res = Ret tt → bubbles evs = message_event <$> ms') ∧
  (create_embeddings inp = true → truthy (upload_path inp p) = true →
   ∃ r, embeddings_constructions evs = [r] ∧
        List.length (create_embeddings_calls evs) =
          (if is_ret r then 1 else 0)%nat) ∧
  (create_embeddings inp = false ∨ truthy (upload_path inp p) = false →
   embeddings_constructions evs = [] ∧ create_embeddings_calls evs = [] ∧
   m' = m).
Proof.
  intros H Hm Hms Hnone.
  destruct (col1_facts inp) as (W1 & Bu1 & PC1 & CM1 & EC1 & CE1 & G1 & R1 & C1).
  destruct H as [e evs2 m' n' H2 | evs2 m' n' res evs3 ms' H2 H3].
  - pose proof (col2_case_manager _ _ _ _ _ _ _ _ H2 Hm) as Hm'.
    pose proof (manager_after_col2 _ _ _ _ _ _ _ _ ms H2 Hnone) as Hnone'.
    destruct (col2_case_facts _ _ _ _ _ _ _ _ H2)
      as (E2 & W2 & Bu2 & PC2 & T2 & G2 & C2 & CM2 & K2 & I2 & Em2).
    simpl in E2. destruct E2 as [E2 R2].
    split; [split; [done|]; columns; rewrite R1; exact R2|].
    split; [columns; by rewrite W1, W2, app_nil_r|].
    split; [columns; by rewrite PC1, PC2|].
    split; [rewrite !Forall_app; repeat split; try done; repeat constructor|].
    split; [columns; by rewrite CM1, CM2|].
    split; [done|]. split; [done|]. split; [done|]. split; [done|].
    split; [columns; by rewrite G1, G2, app_nil_r|].
    split; [done|].
    split.
    + intros Hce Hp. destruct (Em2 Hce Hp) as (r & Hr & Hl). exists r.
      columns. by rewrite EC1, CE1, Hr.
    + intros Hor. destruct (I2 Hor) as [->| ->]; inversion H2; subst;
        simpl in *; try congruence;
        repeat match goal with
        | H : settle _ _ = _ |- _ =>
            unfold settle in H; destruct (caught_by_col2 _);
            simplify_eq/=
        end.
  - pose proof (col2_case_manager _ _ _ _ _ _ _ _ H2 Hm) as Hm'.
    pose proof (manager_after_col2 _ _ _ _ _ _ _ _ ms H2 Hnone) as Hnone'.
    destruct (col2_case_facts _ _ _ _ _ _ _ _ H2)
      as (E2 & W2 & Bu2 & PC2 & T2 & G2 & C2 & CM2 & K2 & I2 & Em2).
    destruct (col3_case_facts _ _ _ _ _ _ H3 Hms Hnone')
      as (E3 & W3 & PC3 & T3 & CM3 & EC3 & CE3 & C3 & Bu3 & MO3 & Pre3 & N3
          & L3 & Ty3 & Q3).
    split.
    { destruct res as [[]|e]; [done|]. destruct E3 as [E3 R3].
      split; [done|]. columns. rewrite !elem_of_app. tauto. }
    split; [columns; by rewrite W1, W2, W3, !app_nil_r|].
    split; [columns; by rewrite PC1, PC2, PC3|].
    split; [rewrite !Forall_app; repeat split; try done; repeat constructor;
            done|].
    split; [columns; by rewrite CM1, CM2, CM3, !app_nil_r|].
    split; [done|]. split; [done|]. split; [done|]. split; [done|].
    split; [columns; by rewrite G1, G2|].
    split; [intros _; columns; by rewrite Bu1, Bu2, Bu3|].
    split.
    + intros Hce Hp. destruct (Em2 Hce Hp) as (r & Hr & Hl). exists r.
      columns. by rewrite EC1, CE1, EC3, CE3, Hr, !app_nil_r.
    + intros Hor. columns. rewrite EC1, CE1, EC3, CE3.
      destruct (I2 Hor) as [->| ->]; inversion H2; subst;
        simpl in *; try congruence; try done;
        repeat match goal with
        | H : settle _ _ = _ |- _ =>
            unfold settle in H; destruct (caught_by_col2 _);
            simplify_eq/=
        end.
Qed.

Lemma write_all_app ws1 ws2 fs :
  write_all (ws1 ++ ws2) fs = write_all ws2 (write_all ws1 fs).
Proof. apply fold_left_app. Qed.

Lemma page_case_facts inp p m ms n fs res evs p' m' ms' fs' n' :
  page_case inp p m ms n fs res evs p' m' ms' fs' n' →
  (m = PNone ∨ ∃ id, m = PObj ChatbotManager id) →
  Forall message_ok ms →
  (truthy m = false → ms = []) →
  ends_well res evs ∧
  writes evs = saved_writes inp ∧
  fs' = write_all (saved_writes inp) fs ∧
  p' = match saved inp with Some _ => PStr "doc.pdf" | None => p end ∧
  page_configs evs = [] ∧
  Forall configured evs ∧
  chatbot_managers_built evs =
    (if truthy m then [] else if truthy m' then [m'] else []) ∧
  (truthy m = true → m' = m) ∧
  (m' = PNone ∨ ∃ id, m' = PObj ChatbotManager id) ∧
  Forall message_ok ms' ∧
  (truthy m' = false → ms' = []) ∧
  ms' = ms ++ (get_response_calls evs ≫= turns_of_call) ∧
  (res = Ret tt → choice inp = "🤖 Chatbot" →
   bubbles evs = message_event <$> ms') ∧
  (choice inp = "🤖 Chatbot" → create_embeddings inp = true →
   truthy p' = true →
   ∃ r, embeddings_constructions evs = [r] ∧
        List.length (create_embeddings_calls evs) =
          (if is_ret r then 1 else 0)%nat) ∧
  (choice inp ≠ "🤖 Chatbot" ∨ create_embeddings inp = false ∨
   truthy p' = false →
   embeddings_constructions evs = [] ∧ create_embeddings_calls evs = [] ∧
   m' = m).
Proof.
  intros H Hm Hms Hnone.
  destruct H as [evs Hch Hst Ht | res evs m' ms' n' Hch Hc].
  - destruct (static_facts evs Hst) as (W & Bu & PC & CM & EC & CE & G & R & C).
    unfold saved_writes, saved.
    rewrite (proj2 (String.eqb_neq _ _) Hch). simpl.
    rewrite G. simpl. rewrite app_nil_r.
    repeat split; try done.
    by destruct (truthy m).
  - destruct (chatbot_page_case_facts _ _ _ _ _ _ _ _ _ _ Hc Hm Hms Hnone)
      as (E & W & PC & C & CM & K & M' & MO & N & L & Bu & Em & Id).
    unfold saved_writes, saved, upload_files, upload_path in *.
    rewrite Hch, String.eqb_refl.
    destruct (uploaded_file inp) as [file|]; simpl in *.
    all: repeat split; try done; try (by intros; apply Bu);
      try (by intros; apply Em).
    all: match goal with
         | H : _ ∨ _ ∨ _ |- _ =>
             destruct H as [?|[?|?]]; first [done | apply Id; by auto]
         end.
Qed.

Lemma preamble_facts :
  writes preamble_events = [] ∧ bubbles preamble_events = [] ∧
  chatbot_managers_built preamble_events = [] ∧
  embeddings_constructions preamble_events = [] ∧
  create_embeddings_calls preamble_events = [] ∧
  get_response_calls preamble_events = [] ∧
  raised preamble_events = [] ∧ Forall configured preamble_events.
Proof. repeat split; repeat constructor. Qed.

Lemma footer_facts (res : outcome unit) :
  let evs := if is_ret res then footer_events else [] in
  writes evs = [] ∧ bubbles evs = [] ∧ page_configs evs = [] ∧
  chatbot_managers_built evs = [] ∧
  embeddings_constructions evs = [] ∧
  create_embeddings_calls evs = [] ∧
  get_response_calls evs = [] ∧
  raised evs = [] ∧ Forall configured evs.
Proof. destruct res; repeat split; repeat constructor. Qed.

(** ** What holds throughout a session *)

Lemma tidy_run B fs inp w :
  tidy fs w →
  ∃ p m ms res evs p' m' ms' fs' n',
    opens_with w p m ms ∧
    (m = PNone ∨ ∃ id, m = PObj ChatbotManager id) ∧
    Forall message_ok ms ∧
    (truthy m = false → ms = []) ∧
    script B inp w =
      (res,
       {| session_state := mk_state p' m' ms'; files := fs';
          trace := trace w ++ preamble_events ++ evs ++
                   (if is_ret res then footer_events else []);
          next_id := n' |}) ∧
    page_case inp p m ms (next_id w) (files w) res evs p' m' ms' fs' n' ∧
    Forall (answered B) evs ∧
    tidy fs (run B inp w).
Proof.
  intros (p & m & ms & Hw & Hm & Hms & Hnone & Hcm & Hlog & Hc & Hfs & Hp).
  destruct (script_cases B inp w p m ms Hw Hm Hms)
    as (res & evs & p' & m' & ms' & fs' & n' & Hs & Hcase & Ha).
  exists p, m, ms, res, evs, p', m', ms', fs', n'.
  do 7 (split; [done|]).
  destruct (page_case_facts _ _ _ _ _ _ _ _ _ _ _ _ _ Hcase Hm Hms Hnone)
    as (E & W & F & P' & PC & C & CM & K & M' & MO & N & L & _).
  destruct preamble_facts as (W0 & _ & CM0 & _ & _ & G0 & _ & C0).
  destruct (footer_facts res) as (W9 & _ & _ & CM9 & _ & _ & G9 & _ & C9).
  unfold run. rewrite Hs. cbn [snd].
  exists p', m', ms'. split; [by left|].
  do 3 (split; [done|]).
  cbn [trace files session_state].
  unfold chatbot_managers_built, get_response_calls, writes in *.
  rewrite !omap_app, !bind_app.
  rewrite W0, CM0, G0, W9, CM9, G9, W, CM, !app_nil_r, ?app_nil_l.
  change ([] ≫= turns_of_call) with (@nil pyval). rewrite ?app_nil_l.
  split; [|split; [|split; [|split]]].
  - rewrite Hcm. destruct (truthy m) eqn:Em; [|done].
    by rewrite (K eq_refl), Em.
  - by rewrite L, Hlog.
  - rewrite !Forall_app. by repeat split.
  - by rewrite write_all_app, <- Hfs.
  - rewrite P', Hp. unfold saved_writes.
    destruct (saved inp); [|by rewrite app_nil_r].
    by destruct (omap is_write (trace w)).
Qed.

Lemma session_from_tidy B fs inps w :
  tidy fs w → tidy fs (session_from B w inps).
Proof.
  revert w. induction inps as [|inp inps IH]; intros w Hw; [done|].
  simpl. apply IH.
  by destruct (tidy_run B fs inp w Hw)
    as (?&?&?&?&?&?&?&?&?&?&?&?&?&?&?&?&?&?).
Qed.

Lemma initial_tidy fs : tidy fs (initial_world fs).
Proof.
  exists PNone, PNone, []. split; [by right|].
  repeat split; try done. by left.
Qed.

Lemma session_tidy B fs inps : tidy fs (session B fs inps).
Proof. apply session_from_tidy, initial_tidy. Qed.

(** ** One execution of a session *)

Lemma messages_of_state w p m ms :
  session_state w = mk_state p m ms → messages_of w = ms.
Proof.
  intros H. unfold messages_of, state_get, bind, get_session_state, lift.
  by rewrite H.
Qed.

Lemma chatbot_manager_of_state w p m ms :
  session_state w = mk_state p m ms → chatbot_manager_of w = Ret m.
Proof.
  intros H. unfold chatbot_manager_of, state_get, bind, get_session_state, lift.
  by rewrite H.
Qed.

Lemma temp_pdf_path_of_state w p m ms :
  session_state w = mk_state p m ms → temp_pdf_path_of w = Ret p.
Proof.
  intros H. unfold temp_pdf_path_of, state_get, bind, get_session_state, lift.
  by rewrite H.
Qed.

Lemma session_run B fs inps inp :
  ∃ p m ms res evs p' m' ms' fs' n',
    opens_with (session B fs inps) p m ms ∧
    (m = PNone ∨ ∃ id, m = PObj ChatbotManager id) ∧
    Forall message_ok ms ∧
    (truthy m = false → ms = []) ∧
    fst (script B inp (session B fs inps)) = res ∧
    session_state (run B inp (session B fs inps)) = mk_state p' m' ms' ∧
    files (run B inp (session B fs inps)) = fs' ∧
    next_id (run B inp (session B fs inps)) = n' ∧
    new_events (session B fs inps) (run B inp (session B fs inps)) =
      preamble_events ++ evs ++ (if is_ret res then footer_events else []) ∧
    page_case inp p m ms (next_id (session B fs inps))
      (files (session B fs inps)) res evs p' m' ms' fs' n' ∧
    Forall (answered B) evs.
Proof.
  destruct (tidy_run B fs inp (session B fs inps) (session_tidy B fs inps))
    as (p & m & ms & res & evs & p' & m' & ms' & fs' & n'
        & Hw & Hm & Hms & Hnone & Hs & Hcase & Ha & _).
  exists p, m, ms, res, evs, p', m', ms', fs', n'.
  do 4 (split; [done|]).
  unfold run. rewrite Hs. cbn [fst snd session_state files next_id].
  do 4 (split; [done|]).
  split; [by apply new_events_app | done].
Qed.





Lemma b64_payload_safe data :
  Forall (λ c, is_b64_char c = true) (list_ascii_of_string (b64encode data)).
Proof.
  assert (Hd : ∀ n, is_b64_char (b64_digit n) = true).
  { intros n. unfold b64_digit.
    assert (Hlt : (N.to_nat (n mod 64) < 64)%nat).
    { pose proof (N.mod_upper_bound n 64 ltac:(done)). lia. }
    revert Hlt. generalize (N.to_nat (n mod 64)). intros k Hk.
    do 64 (destruct k as [|k]; [reflexivity|]). lia. }
  assert (H3 : ∀ k (data : list byte), (List.length data < k)%nat →
    Forall (λ c, is_b64_char c = true)
      (list_ascii_of_string (b64encode data))).
  { induction k as [|k IH]; intros l Hl; [lia|].
    destruct l as [|a [|b [|c rest]]]; simpl; repeat constructor;
      try apply Hd.
    apply IH. simpl in Hl. lia. }
  apply (H3 (S (List.length data))). lia.
Qed.

(** ** Where a failing execution stops *)




(** ** Theorems about sessions *)




(** X6: in every execution of a session [set_page_config] is the first
    thing done and is done once, as Streamlit asks, and the side bar
    follows it at once. *)
Theorem page_config_first_and_once B fs inps inp :
  ∃ rest,
    new_events (session B fs inps) (run B inp (session B fs inps)) =
      preamble_events ++ rest ∧
    hd_error preamble_events =
      Some (EvSetPageConfig "Information Extractor App" "wide" "expanded") ∧
    page_configs (new_events (session B fs inps)
                    (run B inp (session B fs inps))) =
      [EvSetPageConfig "Information Extractor App" "wide" "expanded"].
Proof.
  destruct (session_run B fs inps inp)
    as (p & m & ms & res & evs & p' & m' & ms' & fs' & n'
        & Hw & Hm & Hms & Hnone & Hr & Hss & Hfs & Hn & Hev & Hcase & Ha).
  destruct (page_case_facts _ _ _ _ _ _ _ _ _ _ _ _ _ Hcase Hm Hms Hnone)
    as (_ & _ & _ & _ & PC & _).
  destruct (footer_facts res) as (_ & _ & PC9 & _).
  eexists. split; [exact Hev|]. split; [done|].
  rewrite Hev. unfold page_configs in *.
  by rewrite !omap_app, PC, PC9.
Qed.

(** X7: an execution of a session that ends normally ends with the
    footer. *)
Theorem footer_closes_the_page B fs inps inp :
  fst (script B inp (session B fs inps)) = Ret tt →
  footer_events `suffix_of`
    new_events (session B fs inps) (run B inp (session B fs inps)).
Proof.
  intros Hres.
  destruct (session_run B fs inps inp)
    as (p & m & ms & res & evs & p' & m' & ms' & fs' & n'
        & Hw & Hm & Hms & Hnone & Hr & Hss & Hfs & Hn & Hev & Hcase & Ha).
  rewrite Hres in Hr. subst res. rewrite Hev. simpl is_ret. cbv iota.
  exists (preamble_events ++ evs). by rewrite <- app_assoc.
Qed.

Lemma footer_closes_the_page_witness :
  fst (script backend_failing (ask "hi")
         (session backend_failing ∅ [upload_and_embed sample_pdf])) = Ret tt ∧
  footer_events `suffix_of`
    new_events (session backend_failing ∅ [upload_and_embed sample_pdf])
      (run backend_failing (ask "hi")
         (session backend_failing ∅ [upload_and_embed sample_pdf])).
Proof.
  assert (H : fst (script backend_failing (ask "hi")
                     (session backend_failing ∅ [upload_and_embed sample_pdf]))
              = Ret tt) by (vm_compute; reflexivity).
  split; [exact H|].
  exact (footer_closes_the_page backend_failing ∅
           [upload_and_embed sample_pdf] (ask "hi") H).
Defined.

(** X8: when an execution of a session shows the chatbot page and ends
    normally, the chat bubbles it showed are the turns of the log it leaves
    behind, each once and in the order of the log: the turns stored before,
    shown again, and then the new ones. *)
Theorem bubbles_are_the_log B fs inps inp :
  choice inp = "🤖 Chatbot" →
  fst (script B inp (session B fs inps)) = Ret tt →
  bubbles (new_events (session B fs inps) (run B inp (session B fs inps))) =
    message_event <$> messages_of (run B inp (session B fs inps)).
Proof.
  intros Hch Hres.
  destruct (session_run B fs inps inp)
    as (p & m & ms & res & evs & p' & m' & ms' & fs' & n'
        & Hw & Hm & Hms & Hnone & Hr & Hss & Hfs & Hn & Hev & Hcase & Ha).
  rewrite Hres in Hr. subst res.
  destruct (page_case_facts _ _ _ _ _ _ _ _ _ _ _ _ _ Hcase Hm Hms Hnone)
    as (_ & _ & _ & _ & _ & _ & _ & _ & _ & _ & _ & _ & Bu & _).
  rewrite Hev, (messages_of_state _ _ _ _ Hss), <- (Bu eq_refl Hch).
  unfold bubbles. by rewrite !omap_app, app_nil_r.
Qed.

Lemma bubbles_are_the_log_witness :
  choice (ask "more") = "🤖 Chatbot" ∧
  fst (script backend_ok (ask "more")
         (session backend_ok ∅ [upload_and_embed sample_pdf; ask "hi"])) =
    Ret tt ∧
  bubbles
    (new_events
       (session backend_ok ∅ [upload_and_embed sample_pdf; ask "hi"])
       (run backend_ok (ask "more")
          (session backend_ok ∅ [upload_and_embed sample_pdf; ask "hi"]))) =
  message_event <$>
    messages_of
      (run backend_ok (ask "more")
         (session backend_ok ∅ [upload_and_embed sample_pdf; ask "hi"])).
Proof.
  assert (H : fst (script backend_ok (ask "more")
                     (session backend_ok ∅
                        [upload_and_embed sample_pdf; ask "hi"])) = Ret tt)
    by (vm_compute; reflexivity).
  split; [reflexivity|]. split; [exact H|].
  exact (bubbles_are_the_log backend_ok ∅
           [upload_and_embed sample_pdf; ask "hi"] (ask "more") eq_refl H).
Defined.

(** X9: at no moment of a session does the log hold a turn while no
    chatbot manager is stored. *)
Theorem messages_need_manager B fs inps msg :
  msg ∈ messages_of (session B fs inps) →
  ∃ id, chatbot_manager_of (session B fs inps) = Ret (PObj ChatbotManager id).
Proof.
  destruct (session_tidy B fs inps)
    as (p & m & ms & Hw & Hm & _ & Hnone & _).
  destruct Hw as [Hss|(Hss & _)].
  - rewrite (messages_of_state _ _ _ _ Hss),
      (chatbot_manager_of_state _ _ _ _ Hss).
    destruct Hm as [->|[id ->]]; [|by eauto].
    rewrite (Hnone eq_refl). by intros ?%elem_of_nil.
  - unfold messages_of, state_get, bind, get_session_state, lift.
    rewrite Hss. by intros ?%elem_of_nil.
Qed.

Lemma messages_need_manager_witness :
  turn "user" (PStr "hi") ∈
    messages_of (session backend_ok ∅ [upload_and_embed sample_pdf; ask "hi"]) ∧
  ∃ id,
    chatbot_manager_of
      (session backend_ok ∅ [upload_and_embed sample_pdf; ask "hi"]) =
    Ret (PObj ChatbotManager id).
Proof.
  assert (H : turn "user" (PStr "hi") ∈
              messages_of (session backend_ok ∅
                             [upload_and_embed sample_pdf; ask "hi"]))
    by (vm_compute; apply list_elem_of_here).
  split; [exact H|].
  exact (messages_need_manager backend_ok ∅
           [upload_and_embed sample_pdf; ask "hi"] _ H).
Defined.

(** X10: in a whole session at most one chatbot manager comes into being,
    and it is the one the state holds: the trace shows a constructor of
    [ChatbotManager] that returned exactly when a manager is stored, once,
    and with that very object. *)
Theorem one_chatbot_manager_per_session B fs inps :
  chatbot_managers_built (trace (session B fs inps)) =
    match chatbot_manager_of (session B fs inps) with
    | Ret (PObj ChatbotManager id) => [PObj ChatbotManager id]
    | _ => []
    end.
Proof.
  destruct (session_tidy B fs inps)
    as (p & m & ms & Hw & Hm & _ & _ & Hcm & _).
  rewrite Hcm. destruct Hw as [Hss|(Hss & _ & -> & _)].
  - rewrite (chatbot_manager_of_state _ _ _ _ Hss).
    by destruct Hm as [->|[id ->]].
  - unfold chatbot_manager_of, state_get, bind, get_session_state, lift.
    by rewrite Hss.
Qed.

(** X11: at every moment of a session the log is what the calls of
    [get_response] made so far left behind, call by call: the question, and
    after it the answer, or the text of the error for an instance of
    [Exception], or nothing for an exception that got away.  No turn comes
    from anywhere else, and none is dropped. *)
Theorem log_is_the_calls B fs inps :
  messages_of (session B fs inps) =
    get_response_calls (trace (session B fs inps)) ≫= turns_of_call.
Proof.
  destruct (session_tidy B fs inps)
    as (p & m & ms & Hw & _ & _ & _ & _ & Hlog & _).
  rewrite <- Hlog. destruct Hw as [Hss|(Hss & _ & _ & ->)].
  - exact (messages_of_state _ _ _ _ Hss).
  - unfold messages_of, state_get, bind, get_session_state, lift.
    by rewrite Hss.
Qed.

(** X12: unlike the chatbot manager, the embeddings manager is not kept:
    every execution of a session that shows the chatbot page with the box
    ticked, while a file is in the uploader or a path is stored, constructs
    a new [EmbeddingsManager], once, and calls its [create_embeddings]
    once if the constructor returned and not at all if it raised. *)
Theorem embeddings_manager_rebuilt B fs inps inp :
  choice inp = "🤖 Chatbot" →
  create_embeddings inp = true →
  uploaded_file inp ≠ None ∨
  temp_pdf_path_of (session B fs inps) = Ret (PStr "doc.pdf") →
  ∃ r,
    embeddings_constructions
      (new_events (session B fs inps) (run B inp (session B fs inps))) = [r] ∧
    List.length
      (create_embeddings_calls
         (new_events (session B fs inps) (run B inp (session B fs inps)))) =
      (if is_ret r then 1 else 0)%nat.
Proof.
  intros Hch Hce Hp.
  destruct (session_run B fs inps inp)
    as (p & m & ms & res & evs & p' & m' & ms' & fs' & n'
        & Hw & Hm & Hms & Hnone & Hr & Hss & Hfs & Hn & Hev & Hcase & Ha).
  destruct (page_case_facts _ _ _ _ _ _ _ _ _ _ _ _ _ Hcase Hm Hms Hnone)
    as (_ & _ & _ & P' & _ & _ & _ & _ & _ & _ & _ & _ & _ & Em & _).
  assert (Htruthy : truthy p' = true).
  { rewrite P'. unfold saved. rewrite Hch, String.eqb_refl.
    destruct (uploaded_file inp) as [file|]; [done|]. simpl.
    destruct Hp as [?|Hp]; [done|].
    destruct Hw as [Hss0|(Hss0 & _)].
    - rewrite (temp_pdf_path_of_state _ _ _ _ Hss0) in Hp. by simplify_eq.
    - revert Hp.
      unfold temp_pdf_path_of, state_get, bind, get_session_state, lift.
      by rewrite Hss0. }
  destruct (Em Hch Hce Htruthy) as (r & Hr1 & Hr2). exists r.
  destruct preamble_facts as (_ & _ & _ & EC0 & CE0 & _).
  destruct (footer_facts res) as (_ & _ & _ & _ & EC9 & CE9 & _).
  rewrite Hev. unfold embeddings_constructions, create_embeddings_calls in *.
  by rewrite !omap_app, EC0, CE0, EC9, CE9, !app_nil_r.
Qed.

Lemma embeddings_manager_rebuilt_witness :
  choice (ask "hi") = "🤖 Chatbot" ∧
  create_embeddings (ask "hi") = true ∧
  ∃ r,
    embeddings_constructions
      (new_events
         (session backend_ok ∅ [upload_and_embed sample_pdf])
         (run backend_ok (ask "hi")
            (session backend_ok ∅ [upload_and_embed sample_pdf]))) = [r] ∧
    List.length
      (create_embeddings_calls
         (new_events
            (session backend_ok ∅ [upload_and_embed sample_pdf])
            (run backend_ok (ask "hi")
               (session backend_ok ∅ [upload_and_embed sample_pdf])))) =
      (if is_ret r then 1 else 0)%nat.
Proof.
  split; [reflexivity|]. split; [reflexivity|].
  apply (embeddings_manager_rebuilt backend_ok ∅
           [upload_and_embed sample_pdf] (ask "hi") eq_refl eq_refl).
  right. vm_compute. reflexivity.
Defined.


(** X14: every manager a session constructs gets its keyword arguments
    from [CONFIG] and from nowhere else: the five of lines 41-47 for an
    embeddings manager, the seven of lines 57-65 for a chatbot manager,
    each with the value [CONFIG] holds. *)
Theorem managers_built_from_config B fs inps cls kwargs res :
  EvNewManager cls kwargs res ∈ trace (session B fs inps) →
  kwargs = match cls with
           | EmbeddingsManager => embeddings_kwargs
           | ChatbotManager => chatbot_kwargs
           end ∧
  Forall (λ kv, kv.2 ∈ (snd <$> CONFIG)) kwargs.
Proof.
  intros Hin.
  destruct (session_tidy B fs inps)
    as (p & m & ms & _ & _ & _ & _ & _ & _ & Hc & _).
  rewrite Forall_forall in Hc. specialize (Hc _ Hin).
  destruct cls; simpl in Hc; subst kwargs; (split; [done|]).
  all: repeat constructor; member.
Qed.

Lemma managers_built_from_config_witness :
  EvNewManager ChatbotManager chatbot_kwargs (Ret (PObj ChatbotManager 1)) ∈
    trace (session backend_ok ∅ [upload_and_embed sample_pdf]) ∧
  Forall (λ kv, kv.2 ∈ (snd <$> CONFIG)) chatbot_kwargs.
Proof.
  assert (H : EvNewManager ChatbotManager chatbot_kwargs
                (Ret (PObj ChatbotManager 1)) ∈
              trace (session backend_ok ∅ [upload_and_embed sample_pdf]))
    by (vm_compute; member).
  split; [exact H|].
  exact (proj2 (managers_built_from_config backend_ok ∅
                  [upload_and_embed sample_pdf] _ _ _ H)).
Defined.



(** ** What the trace says of the managers *)









(** ** The preview *)

Lemma b64encode_length data :
  String.length (b64encode data) = (4 * ((List.length data + 2) / 3))%nat.
Proof.
  assert (H3 : ∀ k (data : list byte), (List.length data < k)%nat →
    String.length (b64encode data) = (4 * ((List.length data + 2) / 3))%nat).
  { induction k as [|k IH]; intros l Hl; [lia|].
    destruct l as [|a [|b [|c rest]]]; try reflexivity.
    cbn [b64encode String.length List.length].
    rewrite IH by (simpl in Hl; lia).
    replace (S (S (S (List.length rest))) + 2)%nat
      with ((List.length rest + 2) + 1 * 3)%nat by lia.
    rewrite Nat.div_add by lia. lia. }
  apply (H3 (S (List.length data))). lia.
Qed.

(** X19: [display_pdf] never fails, touches neither the state nor the
    files, and shows one piece of HTML: the frame of line 30 around the
    base64 text of the file.  That text has four characters for every
    three bytes begun, all of them letters, digits, [+], [/] or [=]; none
    is a double quote, so nothing in a file can end the [src] attribute it
    is written into. *)
Theorem display_pdf_markup file w :
  display_pdf file w =
    (Ret tt, with_events w [EvMarkdown (pdf_display file) true]) ∧
  pdf_display file =
    "<iframe src=" +:+ dquote +:+ "data:application/pdf;base64,"
    +:+ b64encode (file_data file)
    +:+ dquote +:+ " width=" +:+ dquote +:+ "100%" +:+ dquote
    +:+ " height=" +:+ dquote +:+ "600" +:+ dquote
    +:+ " type=" +:+ dquote +:+ "application/pdf" +:+ dquote +:+ "></iframe>" ∧
  String.length (b64encode (file_data file)) =
    (4 * ((List.length (file_data file) + 2) / 3))%nat ∧
  Forall (λ c, is_b64_char c = true ∧ String c EmptyString ≠ dquote)
    (list_ascii_of_string (b64encode (file_data file))).
Proof.
  split; [reflexivity|]. split; [reflexivity|].
  split; [apply b64encode_length|].
  eapply Forall_impl; [apply b64_payload_safe|].
  intros c Hc. split; [exact Hc|].
  intros [= ->]. discriminate Hc.
Qed.
